(** * Handoff analytics: a shallow embedding of [analytics.py]

    The development follows the pipeline of the program: the Python string
    and dictionary primitives it relies on, the document parser
    ([parse_handoff]), the two signal extractors
    ([extract_confidence_levels], [extract_issues]), the aggregation loop
    ([analyze_handoffs]), the console renderers and the JSON export, and
    finally the command dispatch of [main]. *)

From Stdlib Require Import List ZArith NArith Bool Lia String Ascii QArith Sorted
  Permutation.
Import ListNotations.

Set Implicit Arguments.
Local Open Scope Z_scope.

(** ** Python strings

    A [str] is a sequence of Unicode code points. *)

Definition str := list N.

(** An ASCII literal, code point by code point. *)
Definition u (s : string) : str := map N_of_ascii (list_ascii_of_string s).

Module Py.

Fixpoint str_eqb (a b : str) : bool :=
  match a, b with
  | [], [] => true
  | x :: a', y :: b' => N.eqb x y && str_eqb a' b'
  | _, _ => false
  end.

(** [s.startswith(p)] *)
Fixpoint startswith (p s : str) : bool :=
  match p, s with
  | [], _ => true
  | x :: p', y :: s' => N.eqb x y && startswith p' s'
  | _ :: _, [] => false
  end.

(** [sub in s] *)
Fixpoint contains (sub s : str) : bool :=
  startswith sub s ||
  match s with
  | [] => false
  | _ :: s' => contains sub s'
  end.

(** The code points [str.strip()] removes (those with [str.isspace]). *)
Definition isspace (c : N) : bool :=
  ((9 <=? c) && (c <=? 13) || (28 <=? c) && (c <=? 32) ||
   (c =? 133) || (c =? 160) || (c =? 5760) ||
   (8192 <=? c) && (c <=? 8202) ||
   (c =? 8232) || (c =? 8233) || (c =? 8239) || (c =? 8287) ||
   (c =? 12288))%N.

Fixpoint lstrip (s : str) : str :=
  match s with
  | c :: s' => if isspace c then lstrip s' else s
  | [] => []
  end.

Definition rstrip (s : str) : str := rev (lstrip (rev s)).

Definition strip (s : str) : str := rstrip (lstrip s).

(** [s.split(sep)] for a one-character separator: never the empty list. *)
Fixpoint split (sep : N) (s : str) : list str :=
  match s with
  | [] => [[]]
  | c :: s' =>
      if N.eqb c sep then [] :: split sep s'
      else match split sep s' with
           | l :: ls => (c :: l) :: ls
           | [] => [[c]]
           end
  end.

(** [sep.join(parts)] for a one-character separator. *)
Fixpoint join (sep : N) (parts : list str) : str :=
  match parts with
  | [] => []
  | [p] => p
  | p :: rest => p ++ sep :: join sep rest
  end.

(** Truth value of a string: the empty string is false. *)
Definition truthy (s : str) : bool :=
  match s with [] => false | _ :: _ => true end.

(** [len(xs)] *)
Definition len {A} (xs : list A) : Z := Z.of_nat (List.length xs).

(** ASCII-range lowering; [str.lower] coincides with it on ASCII text. *)
Definition ascii_lower (s : str) : str :=
  map (fun c => if (65 <=? c) && (c <=? 90) then c + 32 else c)%N s.

(** ASCII decimal digits; the [\d] class coincides with it on ASCII text. *)
Definition ascii_digit (c : N) : bool := ((48 <=? c) && (c <=? 57))%N.

End Py.

Definition NL : N := 10.

(** ** Python dictionaries

    A [dict] keeps its keys in insertion order; assigning to a key that is
    already present replaces the value in place and leaves the key where it
    was. *)

Definition dict (V : Type) := list (str * V).

Module Dict.
Section Ops.
Variable V : Type.

Definition empty : dict V := [].

Fixpoint get (d : dict V) (k : str) : option V :=
  match d with
  | [] => None
  | (k', v) :: d' => if Py.str_eqb k' k then Some v else get d' k
  end.

(** [d[k] = v] *)
Fixpoint set (d : dict V) (k : str) (v : V) : dict V :=
  match d with
  | [] => [(k, v)]
  | (k', v') :: d' =>
      if Py.str_eqb k' k then (k', v) :: d' else (k', v') :: set d' k v
  end.

(** [d.get(k, default)] *)
Definition get_default (d : dict V) (k : str) (default : V) : V :=
  match get d k with Some v => v | None => default end.

Definition keys (d : dict V) : list str := map fst d.

Definition mem (d : dict V) (k : str) : bool :=
  match get d k with Some _ => true | None => false end.

End Ops.
End Dict.

(** ** The document parser *)

(** A naive [datetime], as its count of microseconds from a fixed origin:
    the order and the differences of datetimes are those of the counts. *)
Definition datetime := Z.

(** A handoff file as the program sees it through [Path]: its name, its text
    ([read_text]) and its modification time ([stat().st_mtime], in an
    order-preserving integer encoding). *)
Record handoff_file := {
  file_name : str;
  file_text : str;
  file_mtime : Z
}.

Record parse_state := {
  ps_sections : dict str;
  current_section : option str;
  current_content : list str
}.

Definition heading_marker : str := u "## ".

(** [if current_section: sections[current_section] = ...]: neither [None]
    nor the empty heading stores anything. *)
Definition store_section (st : parse_state) : dict str :=
  match current_section st with
  | Some h =>
      if Py.truthy h
      then Dict.set (ps_sections st) h
                    (Py.strip (Py.join NL (current_content st)))
      else ps_sections st
  | None => ps_sections st
  end.

Definition parse_line (st : parse_state) (line : str) : parse_state :=
  if Py.startswith heading_marker line then
    {| ps_sections := store_section st;
       current_section := Some (Py.strip (skipn 3 line));
       current_content := [] |}
  else
    {| ps_sections := ps_sections st;
       current_section := current_section st;
       current_content := current_content st ++ [line] |}.

Definition parse_init : parse_state :=
  {| ps_sections := Dict.empty str;
     current_section := None;
     current_content := [] |}.

Definition parse_lines (lines : list str) : dict str :=
  store_section (fold_left parse_line lines parse_init).

Definition parse_sections (content : str) : dict str :=
  parse_lines (Py.split NL content).

(** ** Data produced by the pipeline *)

Record parsed := {
  filepath : handoff_file;
  filename : str;
  timestamp_token : str;
  sections : dict str;
  modified : datetime
}.

Inductive level := High | Low | Medium | Unknown.

Inductive issue_type := risk | bug.

(** What [extract_issues] appends: a dictionary with the keys ['type'] and
    ['description']. *)
Record raw_issue := {
  raw_type : issue_type;
  raw_description : str
}.

(** The same dictionary once [analyze_handoffs] has added ['handoff'] and
    ['timestamp']. *)
Record issue := {
  type : issue_type;
  description : str;
  handoff : str;
  timestamp : datetime
}.

(** The value of [confidence_trends] at a heading. *)
Record trend := {
  high : Z;
  medium : Z;
  low : Z
}.

Record span := {
  span_start : datetime;
  span_end : datetime;
  duration_days : Z
}.

(** The dictionary [analyze_handoffs] builds; its entry ['project_phases'],
    an empty list that nothing fills or reads, is left out. *)
Record data := {
  total_handoffs : Z;
  time_span : option span;
  handoffs : list parsed;
  issues : list issue;
  confidence_trends : dict trend;
  sections_frequency : dict Z
}.

Definition level_eqb (a b : level) : bool :=
  match a, b with
  | High, High | Low, Low | Medium, Medium | Unknown, Unknown => true
  | _, _ => false
  end.

Definition issue_type_eqb (a b : issue_type) : bool :=
  match a, b with
  | risk, risk | bug, bug => true
  | _, _ => false
  end.

Definition type_name (t : issue_type) : str :=
  match t with risk => u "risk" | bug => u "bug" end.

(** ** Markers and keywords of the extractors *)

Definition CHECK_MARK : str := [9989%N].                (* U+2705 *)
Definition QUESTION_MARK : str := [10067%N].            (* U+2753 *)
Definition WARNING_SIGN : str := [9888%N; 65039%N].     (* U+26A0 U+FE0F *)

Definition bug_keywords : list str :=
  [u "broken"; u "bug"; u "issue"; u "error"; u "doesnt work"].

Definition is_bullet (line : str) : bool :=
  Py.startswith (u "-") line || Py.startswith (u "*") line.

(** ** Time *)

(** Microseconds in a day: naive datetimes are counted in microseconds, so
    [(a - b).days] is the floor of the difference over this constant. *)
Definition US_PER_DAY : Z := 86400000000.

Definition timedelta_days (a b : datetime) : Z := (a - b) / US_PER_DAY.

(** The calendar day a naive datetime falls on. *)
Definition date_of (t : datetime) : Z := t / US_PER_DAY.

(** [min(ts)] and [max(ts)] of a list with head [t]. *)
Definition min_of (t : datetime) (ts : list datetime) : datetime :=
  fold_left Z.min ts t.

Definition max_of (t : datetime) (ts : list datetime) : datetime :=
  fold_left Z.max ts t.

(** ** Sorting as the program uses it

    [sorted(..., reverse=True)], [list.sort(reverse=True)] and
    [Counter.most_common] are stable: equal keys keep their order. *)

Section Sorting.
Variable A : Type.
Variable key : A -> Z.

Fixpoint insert_desc (x : A) (l : list A) : list A :=
  match l with
  | [] => [x]
  | y :: l' => if key y <? key x then x :: l else y :: insert_desc x l'
  end.

Definition sorted_desc (l : list A) : list A :=
  fold_left (fun acc x => insert_desc x acc) l [].
End Sorting.

(** [Counter.most_common(n)] and [Counter.most_common()] *)
Definition most_common_n (n : nat) (c : dict Z) : list (str * Z) :=
  firstn n (sorted_desc snd c).

Definition most_common (c : dict Z) : list (str * Z) := sorted_desc snd c.

(** [Counter(xs)]: one increment per element, keys in first-seen order. *)
Definition counter_incr (c : dict Z) (k : str) : dict Z :=
  Dict.set c k (Dict.get_default c k 0 + 1).

Definition counter_get (c : dict Z) (k : str) : Z := Dict.get_default c k 0.

(** ** JSON documents

    What [json.dumps] is handed; [json.loads] gives back the same document. *)

Unset Elimination Schemes.
Inductive json :=
| JInt (z : Z)
| JStr (s : str)
| JTime (t : datetime)        (* the string [t.isoformat()] *)
| JArr (items : list json)
| JObj (members : list (str * json)).
Set Elimination Schemes.

Fixpoint json_member (k : str) (members : list (str * json)) : option json :=
  match members with
  | [] => None
  | (k', v) :: rest => if Py.str_eqb k' k then Some v else json_member k rest
  end.

(** Reading an integer member and the length of an array member of a
    document. *)
Definition json_int (k : str) (doc : json) : option Z :=
  match doc with
  | JObj members =>
      match json_member k members with Some (JInt z) => Some z | _ => None end
  | _ => None
  end.

Definition json_array_len (k : str) (doc : json) : option Z :=
  match doc with
  | JObj members =>
      match json_member k members with
      | Some (JArr items) => Some (Py.len items)
      | _ => None
      end
  | _ => None
  end.

(** ** Console and files

    A printed line is kept with the values it shows; the padding and number
    formats of the f-strings are not part of the model. *)

Inductive out :=
| Text (s : string)
| Banner (title : string)
| TotalHandoffs (n : Z)
| TotalIssues (n : Z)
| TimeSpanLine (from to : datetime)
| DurationLine (days : Z)
| FrequencyLine (freq : Q)
| SectionBar (section : str) (bar : Z) (count : Z)
| IssueTypeCount (t : str) (count : Z)
| TimelineEntry (i : Z) (at_ : datetime) (desc : str)
| TimelineMore (n : Z)
| ConfidenceBlock (section : str) (levels : trend) (high_pct med_pct low_pct : Q)
| IssuesBanner (n : Z)
| IssueGroup (t : str) (n : Z)
| IssueLine (at_ : datetime) (desc : str)
| IssueMore (n : Z)
| Saved (what : string) (path : str).

Inductive file_body :=
| JsonText (doc : json)       (* [json.dumps(doc, indent=2)] *)
| HtmlText (d : data).        (* the page rendered from [d] *)

Record world := {
  stdout : list out;
  files : list (str * file_body)
}.

(** The exceptions a run can end with: a division by zero, and what
    reading or writing a file raises. *)
Inductive exn := ZeroDivisionError | UnicodeDecodeError | OSError.

(** Effectful code: it runs in a world, and either raises or returns. *)
Definition io (A : Type) := world -> (exn + A) * world.

Definition ret {A} (a : A) : io A := fun w => (inr a, w).

Definition bind {A B} (m : io A) (k : A -> io B) : io B :=
  fun w =>
    match m w with
    | (inl e, w') => (inl e, w')
    | (inr a, w') => k a w'
    end.

Definition raise {A} (e : exn) : io A := fun w => (inl e, w).

Notation "x <- m ;; k" := (bind m (fun x => k))
  (at level 61, m at next level, right associativity).
Notation "m ;; k" := (bind m (fun _ => k))
  (at level 61, right associativity).

Definition print (o : out) : io unit :=
  fun w => (inr tt, {| stdout := stdout w ++ [o]; files := files w |}).

(** [path.write_text(body)] *)
Definition write_text (path : str) (body : file_body) : io unit :=
  fun w => (inr tt, {| stdout := stdout w; files := files w ++ [(path, body)] |}).

(** [a / b] on integers: the quotient, or [ZeroDivisionError]. *)
Definition truediv (a b : Z) : io Q :=
  if b =? 0 then raise ZeroDivisionError
  else ret (Qdiv (inject_Z a) (inject_Z b)).

(** [for x in xs: body(x)] *)
Fixpoint for_each {A} (xs : list A) (body : A -> io unit) : io unit :=
  match xs with
  | [] => ret tt
  | x :: xs' => body x ;; for_each xs' body
  end.

Definition empty_world : world := {| stdout := []; files := [] |}.

(** ** Command line *)

Inductive export_format := export_json_fmt | export_html_fmt.

Inductive command := cmd_summary | cmd_timeline | cmd_confidence | cmd_issues | cmd_report.

Record args := {
  export : option export_format;
  cmd : option command
}.

(** ** The program *)

Section Program.

(** Parts of the Python runtime the program calls and that are kept
    abstract: [str.lower], the [\d] class of [re] and
    [datetime.fromtimestamp]. *)
Variable lower : str -> str.
Variable re_digit : N -> bool.
Variable fromtimestamp : Z -> datetime.

(** *** [list_handoffs]

    The argument is what the glob finds in the handoff directory, [None]
    when the directory does not exist; [file_mtime] is the file's
    [st_mtime]. *)
Definition list_handoffs (dir : option (list handoff_file)) : list handoff_file :=
  match dir with
  | None => []
  | Some found => sorted_desc file_mtime found
  end.

(** *** [parse_handoff] *)

Definition re_alpha (c : N) : bool :=
  ((65 <=? c) && (c <=? 90) || (97 <=? c) && (c <=? 122))%N.

Definition re_dash (c : N) : bool := (c =? 45)%N.

(** The pattern [\d{2}[A-Za-z]{3}\d{4}-\d{4}], one class per position. *)
Definition timestamp_pattern : list (N -> bool) :=
  [re_digit; re_digit; re_alpha; re_alpha; re_alpha;
   re_digit; re_digit; re_digit; re_digit; re_dash;
   re_digit; re_digit; re_digit; re_digit].

Fixpoint re_match (pattern : list (N -> bool)) (s : str) : option str :=
  match pattern, s with
  | [], _ => Some []
  | cls :: pattern', c :: s' =>
      if cls c then
        match re_match pattern' s' with
        | Some m => Some (c :: m)
        | None => None
        end
      else None
  | _ :: _, [] => None
  end.

(** [re.search]: the leftmost match. *)
Fixpoint re_search (pattern : list (N -> bool)) (s : str) : option str :=
  match re_match pattern s with
  | Some m => Some m
  | None =>
      match s with
      | [] => None
      | _ :: s' => re_search pattern s'
      end
  end.

Definition parse_handoff (f : handoff_file) : parsed :=
  {| filepath := f;
     filename := file_name f;
     timestamp_token :=
       match re_search timestamp_pattern (file_name f) with
       | Some m => m
       | None => u "Unknown"
       end;
     sections := parse_sections (file_text f);
     modified := fromtimestamp (file_mtime f) |}.

(** *** [extract_confidence_levels] *)

Definition confidence_of (content : str) : level :=
  if Py.contains CHECK_MARK content
     || Py.contains (u "high confidence") (lower content) then High
  else if Py.contains QUESTION_MARK content
          || Py.contains (u "low confidence") (lower content) then Low
  else if Py.contains WARNING_SIGN content
          || Py.contains (u "medium confidence") (lower content) then Medium
  else Unknown.

Definition extract_confidence_levels (secs : dict str) : dict level :=
  fold_left
    (fun confidences (item : str * str) =>
       Dict.set confidences (fst item) (confidence_of (snd item)))
    secs (Dict.empty level).

(** *** [extract_issues] *)

Definition scan_risk (found : list raw_issue) (line : str) : list raw_issue :=
  let line := Py.strip line in
  if Py.startswith (u "-") line || Py.startswith (u "*") line
  then found ++ [{| raw_type := risk;
                    raw_description := Py.strip (skipn 1 line) |}]
  else found.

Definition scan_bug (found : list raw_issue) (line : str) : list raw_issue :=
  let line_lower := lower line in
  if existsb (fun keyword => Py.contains keyword line_lower) bug_keywords
  then
    if existsb (fun p => Py.startswith p (Py.strip line)) [u "-"; u "*"]
    then found ++ [{| raw_type := bug;
                      raw_description := Py.strip (skipn 1 (Py.strip line)) |}]
    else found
  else found.

Definition extract_issues (secs : dict str) : list raw_issue :=
  let wcgw := Dict.get_default secs (u "What Could Go Wrong") [] in
  let found := fold_left scan_risk (Py.split NL wcgw) [] in
  let state := Dict.get_default secs (u "Current System State") [] in
  fold_left scan_bug (Py.split NL state) found.

(** *** [analyze_handoffs] *)

Definition zero_trend : trend := {| high := 0; medium := 0; low := 0 |}.

(** [trends[section][lvl] += 1] on a [defaultdict]. *)
Definition bump_level (t : trend) (lvl : level) : trend :=
  match lvl with
  | High => {| high := high t + 1; medium := medium t; low := low t |}
  | Medium => {| high := high t; medium := medium t + 1; low := low t |}
  | Low => {| high := high t; medium := medium t; low := low t + 1 |}
  | Unknown => t
  end.

Definition track_confidence (trends : dict trend) (item : str * level) : dict trend :=
  let (section, lvl) := item in
  match lvl with
  | Unknown => trends
  | _ => Dict.set trends section
                  (bump_level (Dict.get_default trends section zero_trend) lvl)
  end.

Definition tag_issue (p : parsed) (i : raw_issue) : issue :=
  {| type := raw_type i;
     description := raw_description i;
     handoff := filename p;
     timestamp := modified p |}.

(** One turn of the loop over the handoffs: the running [data] and the
    list [timestamps]. *)
Definition analyze_step (acc : data * list datetime) (f : handoff_file)
  : data * list datetime :=
  let (d, timestamps) := acc in
  let p := parse_handoff f in
  ({| total_handoffs := total_handoffs d;
      time_span := time_span d;
      handoffs := handoffs d ++ [p];
      issues := fold_left (fun l i => l ++ [tag_issue p i])
                          (extract_issues (sections p)) (issues d);
      confidence_trends :=
        fold_left track_confidence
                  (extract_confidence_levels (sections p))
                  (confidence_trends d);
      sections_frequency :=
        fold_left counter_incr (Dict.keys (sections p))
                  (sections_frequency d) |},
   timestamps ++ [modified p]).

Definition initial_data (hs : list handoff_file) : data :=
  {| total_handoffs := Py.len hs;
     time_span := None;
     handoffs := [];
     issues := [];
     confidence_trends := Dict.empty trend;
     sections_frequency := Dict.empty Z |}.

Definition analyze_handoffs (hs : list handoff_file) : data :=
  match hs with
  | [] => initial_data hs
  | _ :: _ =>
      let (d, timestamps) := fold_left analyze_step hs (initial_data hs, []) in
      match timestamps with
      | [] => d
      | t :: ts =>
          {| total_handoffs := total_handoffs d;
             time_span :=
               Some {| span_start := min_of t ts;
                       span_end := max_of t ts;
                       duration_days :=
                         timedelta_days (max_of t ts) (min_of t ts) |};
             handoffs := handoffs d;
             issues := issues d;
             confidence_trends := confidence_trends d;
             sections_frequency := sections_frequency d |}
      end
  end.

(** *** Console renderers; each returns the status of the command *)

Definition print_summary (d : data) : io Z :=
  print (Banner "Handoff Analytics Summary") ;;
  print (TotalHandoffs (total_handoffs d)) ;;
  print (TotalIssues (Py.len (issues d))) ;;
  match time_span d with
  | Some sp =>
      print (TimeSpanLine (span_start sp) (span_end sp)) ;;
      print (DurationLine (duration_days sp)) ;;
      if duration_days sp >? 0 then
        freq <- truediv (total_handoffs d) (duration_days sp) ;;
        print (FrequencyLine freq)
      else ret tt
  | None => ret tt
  end ;;
  print (Banner "Most Common Sections") ;;
  for_each (most_common_n 10 (sections_frequency d))
    (fun item => print (SectionBar (firstn 30 (fst item))
                                   (snd item * 2) (snd item))) ;;
  print (Banner "Issues Summary") ;;
  for_each (most_common
              (fold_left counter_incr
                 (map (fun i => type_name (type i)) (issues d))
                 (Dict.empty Z)))
    (fun item => print (IssueTypeCount (fst item) (snd item))) ;;
  ret 0.

(** [identity.split('\n')[0][:n] if identity else 'No description'] *)
Definition describe (n : nat) (p : parsed) : str :=
  let identity := Dict.get_default (sections p) (u "Project Identity") [] in
  if Py.truthy identity
  then firstn n (hd [] (Py.split NL identity))
  else u "No description".

(** [enumerate(xs, i)] *)
Fixpoint enumerate {A} (i : Z) (xs : list A) : list (Z * A) :=
  match xs with
  | [] => []
  | x :: xs' => (i, x) :: enumerate (i + 1) xs'
  end.

Definition print_timeline (d : data) : io Z :=
  match handoffs d with
  | [] => print (Text "No handoffs to display.") ;; ret 1
  | _ :: _ =>
      print (Banner "Project Timeline") ;;
      for_each (enumerate 1 (firstn 20 (handoffs d)))
        (fun ip => print (TimelineEntry (fst ip) (modified (snd ip))
                                        (describe 50 (snd ip)))) ;;
      (if Py.len (handoffs d) >? 20
       then print (TimelineMore (Py.len (handoffs d) - 20))
       else ret tt) ;;
      ret 0
  end.

Definition print_confidence (d : data) : io Z :=
  match confidence_trends d with
  | [] => print (Text "No confidence data found.") ;; ret 1
  | _ :: _ =>
      print (Banner "Confidence Trends by Section") ;;
      for_each (confidence_trends d)
        (fun item =>
           let levels := snd item in
           let total := high levels + medium levels + low levels in
           if total =? 0 then ret tt
           else
             h <- truediv (high levels) total ;;
             m <- truediv (medium levels) total ;;
             l <- truediv (low levels) total ;;
             print (ConfidenceBlock (fst item) levels
                      (h * 100) (m * 100) (l * 100))%Q) ;;
      ret 0
  end.

(** [by_type[issue['type']].append(issue)] on a [defaultdict(list)]. *)
Definition group_issue (by_type : dict (list issue)) (i : issue)
  : dict (list issue) :=
  Dict.set by_type (type_name (type i))
           (Dict.get_default by_type (type_name (type i)) [] ++ [i]).

Definition print_issues (d : data) : io Z :=
  match issues d with
  | [] => print (Text "No issues found.") ;; ret 0
  | _ :: _ =>
      print (IssuesBanner (Py.len (issues d))) ;;
      for_each (fold_left group_issue (issues d) (Dict.empty (list issue)))
        (fun item =>
           print (IssueGroup (fst item) (Py.len (snd item))) ;;
           let recent := sorted_desc timestamp (snd item) in
           for_each (firstn 10 recent)
             (fun i => print (IssueLine (timestamp i)
                                        (firstn 70 (description i)))) ;;
           if Py.len recent >? 10
           then print (IssueMore (Py.len recent - 10))
           else ret tt) ;;
      ret 0
  end.

(** *** Exports *)

Definition generate_html_report (d : data) : io Z :=
  write_text (u "handoff-report.html") (HtmlText d) ;;
  print (Saved "HTML report generated" (u "handoff-report.html")) ;;
  print (Saved "Open in browser" (u "handoff-report.html")) ;;
  ret 0.

Definition issue_json (i : issue) : json :=
  JObj [(u "type", JStr (type_name (type i)));
        (u "description", JStr (description i));
        (u "handoff", JStr (handoff i));
        (u "timestamp", JTime (timestamp i))].

Definition trend_json (t : trend) : json :=
  JObj [(u "high", JInt (high t));
        (u "medium", JInt (medium t));
        (u "low", JInt (low t))].

Definition span_json (sp : span) : json :=
  JObj [(u "start", JTime (span_start sp));
        (u "end", JTime (span_end sp));
        (u "duration_days", JInt (duration_days sp))].

Definition export_data (d : data) : json :=
  JObj ([(u "total_handoffs", JInt (total_handoffs d));
         (u "issues", JArr (map issue_json (issues d)));
         (u "confidence_trends",
          JObj (map (fun kv => (fst kv, trend_json (snd kv)))
                    (confidence_trends d)));
         (u "sections_frequency",
          JObj (map (fun kv => (fst kv, JInt (snd kv)))
                    (sections_frequency d)))]
        ++ match time_span d with
           | Some sp => [(u "time_span", span_json sp)]
           | None => []
           end).

Definition export_json (d : data) : io Z :=
  write_text (u "handoff-analytics.json") (JsonText (export_data d)) ;;
  print (Saved "JSON export saved" (u "handoff-analytics.json")) ;;
  ret 0.

(** *** [main]

    The value returned is the status the process exits with
    ([sys.exit(main())]); an exception nothing catches ends the run with a
    traceback.

    What the file system can refuse during a run: [read_error f] is the
    exception [f.read_text()] raises and [write_error p] the one
    [p.write_text(...)] raises, [None] when the call succeeds. *)
Record faults := {
  read_error : handoff_file -> option exn;
  write_error : str -> option exn
}.

(** [parse_handoff] reads the documents one after the other inside the loop
    of [analyze_handoffs]: the first read that fails ends the analysis
    there, and nothing has been printed yet. *)
Fixpoint first_read_error (fl : faults) (hs : list handoff_file) : option exn :=
  match hs with
  | [] => None
  | f :: hs' =>
      match read_error fl f with
      | Some e => Some e
      | None => first_read_error fl hs'
      end
  end.

Definition analyze_run (fl : faults) (hs : list handoff_file) : io data :=
  match first_read_error fl hs with
  | Some e => raise e
  | None => ret (analyze_handoffs hs)
  end.

(** An export writes its file before it prints anything: a write that
    fails raises there. *)
Definition writing (fl : faults) (target : str) (m : io Z) : io Z :=
  match write_error fl target with
  | Some e => raise e
  | None => m
  end.

Definition run_command (fl : faults) (c : command) (d : data) : io Z :=
  match c with
  | cmd_summary => print_summary d
  | cmd_timeline => print_timeline d
  | cmd_confidence => print_confidence d
  | cmd_issues => print_issues d
  | cmd_report => writing fl (u "handoff-report.html") (generate_html_report d)
  end.

Definition main (fl : faults) (a : args) (dir : option (list handoff_file)) : io Z :=
  match list_handoffs dir with
  | [] =>
      print (Text "No handoff documents found.") ;;
      print (Text "Create one with: /handoff") ;;
      ret 1
  | hs =>
      d <- analyze_run fl hs ;;
      match export a with
      | Some export_json_fmt =>
          writing fl (u "handoff-analytics.json") (export_json d)
      | Some export_html_fmt =>
          writing fl (u "handoff-report.html") (generate_html_report d)
      | None =>
          match cmd a with
          | None => print_summary d
          | Some c => run_command fl c d
          end
      end
  end.

(** *** [find_handoff_directory] and the directory listing

    A path as [pathlib] reads it: whether it is anchored at the root, and
    its components. *)
Record path := {
  anchored : bool;
  parts : list str
}.

(** [p / rel] for a relative [rel]. *)
Definition joinpath (p : path) (rel : list str) : path :=
  {| anchored := anchored p; parts := parts p ++ rel |}.

(** The path made of the first [n] components of [p]. *)
Definition ancestor (p : path) (n : nat) : path :=
  {| anchored := anchored p; parts := firstn n (parts p) |}.

(** [p.parents]: the nearest first, the anchor (or [.]) last. *)
Definition parents (p : path) : list path :=
  map (ancestor p) (rev (seq 0 (List.length (parts p)))).

Definition DEFAULT_HANDOFF_DIR : path :=
  {| anchored := false; parts := [u "docs"; u "handoffs"] |}.

(** [exists_] is [Path.exists] on the file system of the run and [cwd] is
    [Path.cwd()]. *)
Definition find_handoff_directory
           (exists_ : path -> bool) (cwd : path) (start_dir : option path) : path :=
  let start_dir := match start_dir with Some p => p | None => cwd end in
  let current_handoff := joinpath start_dir (parts DEFAULT_HANDOFF_DIR) in
  if exists_ current_handoff then current_handoff
  else
    match find (fun parent => exists_ (joinpath parent (parts DEFAULT_HANDOFF_DIR)))
               (start_dir :: parents start_dir) with
    | Some parent => joinpath parent (parts DEFAULT_HANDOFF_DIR)
    | None => DEFAULT_HANDOFF_DIR
    end.

(** An entry of a directory: the file, and whether [is_file()] holds. *)
Record dir_entry := {
  entry_file : handoff_file;
  entry_is_file : bool
}.

(** The file system of the run: which paths exist and what each directory
    holds (nothing for what is no directory). *)
Record filesystem := {
  fs_exists : path -> bool;
  fs_entries : path -> list dir_entry
}.

(** [s.endswith(suffix)] *)
Definition endswith (suffix s : str) : bool := Py.startswith (rev suffix) (rev s).

Definition GLOB_PREFIX : str := u "AI_Continuation_Document-".
Definition GLOB_SUFFIX : str := u ".md".

(** A name matches the pattern [AI_Continuation_Document-*.md] (letter case
    counts, as on POSIX): the star stands for any characters, none
    included. *)
Definition glob_match (name : str) : bool :=
  Py.startswith GLOB_PREFIX name && endswith GLOB_SUFFIX name
  && (List.length GLOB_PREFIX + List.length GLOB_SUFFIX <=? List.length name)%nat.

(** The part of [list_handoffs] before the sort: the directory looked up
    when none is given, its existence, the glob and the [is_file] test. *)
Definition glob_handoffs (fs : filesystem) (cwd : path) (handoff_dir : option path)
  : option (list handoff_file) :=
  let handoff_dir :=
    match handoff_dir with
    | Some p => p
    | None => find_handoff_directory (fs_exists fs) cwd None
    end in
  if fs_exists fs handoff_dir
  then Some (map entry_file
                 (filter (fun e => glob_match (file_name (entry_file e))
                                   && entry_is_file e)
                         (fs_entries fs handoff_dir)))
  else None.

(** [list_handoffs] on a file system. *)
Definition list_handoffs_on (fs : filesystem) (cwd : path) (handoff_dir : option path)
  : list handoff_file :=
  list_handoffs (glob_handoffs fs cwd handoff_dir).

(** *** Reference definitions the properties are stated against *)

Definition key_in (k : str) (ks : list str) : bool :=
  existsb (fun k' => Py.str_eqb k' k) ks.

(** A dictionary as Python builds it has each key once. *)
Fixpoint distinct (ks : list str) : bool :=
  match ks with
  | [] => true
  | k :: ks' => negb (key_in k ks') && distinct ks'
  end.

(** The keys of [ks] in order of first occurrence. *)
Definition first_seen (ks : list str) : list str :=
  fold_left (fun seen k => if key_in k seen then seen else seen ++ [k]) ks [].

Definition is_heading (line : str) : bool := Py.startswith heading_marker line.

Definition heading_of (line : str) : str := Py.strip (skipn 3 line).

(** The lines up to the next heading line. *)
Fixpoint body_lines (lines : list str) : list str :=
  match lines with
  | [] => []
  | l :: rest => if is_heading l then [] else l :: body_lines rest
  end.

(** The document read as the specification describes it: every heading line
    opens a block that runs to the next heading line or to the end; the
    lines before the first heading belong to no block. *)
Fixpoint blocks (lines : list str) : list (str * str) :=
  match lines with
  | [] => []
  | l :: rest =>
      if is_heading l
      then (heading_of l, Py.strip (Py.join NL (body_lines rest))) :: blocks rest
      else blocks rest
  end.

(** The body of the last block headed [h], if there is one. *)
Definition last_body (bs : list (str * str)) (h : str) : option str :=
  fold_left (fun found b => if Py.str_eqb (fst b) h then Some (snd b) else found)
            bs None.

(** Storing the named blocks one after the other. *)
Definition store_blocks (d : dict str) (bs : list (str * str)) : dict str :=
  fold_left (fun d b => if Py.truthy (fst b) then Dict.set d (fst b) (snd b) else d)
            bs d.

(** The text whose lines are the given ASCII literals. *)
Definition text_of (lines : list string) : str := Py.join NL (map u lines).

(** [sub] occurs in [s]. *)
Definition substring (sub s : str) : Prop :=
  exists pre post, s = pre ++ sub ++ post.

(** The markers of the confidence classifier: the symbol itself, or the
    phrase in any letter case. *)
Definition has_high (content : str) : Prop :=
  substring CHECK_MARK content \/ substring (u "high confidence") (lower content).

Definition has_low (content : str) : Prop :=
  substring QUESTION_MARK content \/ substring (u "low confidence") (lower content).

Definition has_medium (content : str) : Prop :=
  substring WARNING_SIGN content \/ substring (u "medium confidence") (lower content).

(** The issue extractor as the specification words it. *)
Definition section_body (secs : dict str) (name : string) : str :=
  match Dict.get secs (u name) with
  | Some body => body
  | None => []
  end.

Definition bulleted (line : str) : bool := is_bullet (Py.strip line).

Definition without_bullet (line : str) : str :=
  Py.strip (skipn 1 (Py.strip line)).

Definition mentions_defect (line : str) : bool :=
  Py.contains (u "broken") (lower line) || Py.contains (u "bug") (lower line)
  || Py.contains (u "issue") (lower line) || Py.contains (u "error") (lower line)
  || Py.contains (u "doesnt work") (lower line).

Definition risks_of (body : str) : list raw_issue :=
  map (fun line => {| raw_type := risk; raw_description := without_bullet line |})
      (filter bulleted (Py.split NL body)).

Definition bugs_of (body : str) : list raw_issue :=
  map (fun line => {| raw_type := bug; raw_description := without_bullet line |})
      (filter (fun line => mentions_defect line && bulleted line)
              (Py.split NL body)).

(** The aggregation loop, field by field. *)
Definition fold_issues (hs : list handoff_file) (acc : list issue) : list issue :=
  fold_left
    (fun l f => fold_left (fun l i => l ++ [tag_issue (parse_handoff f) i])
                          (extract_issues (sections (parse_handoff f))) l)
    hs acc.

Definition fold_trends (hs : list handoff_file) (acc : dict trend) : dict trend :=
  fold_left
    (fun t f => fold_left track_confidence
                  (extract_confidence_levels (sections (parse_handoff f))) t)
    hs acc.

Definition fold_frequency (hs : list handoff_file) (acc : dict Z) : dict Z :=
  fold_left
    (fun c f => fold_left counter_incr (Dict.keys (sections (parse_handoff f))) c)
    hs acc.

Definition span_of (stamps : list datetime) : option span :=
  match stamps with
  | [] => None
  | t :: ts =>
      Some {| span_start := min_of t ts;
              span_end := max_of t ts;
              duration_days := timedelta_days (max_of t ts) (min_of t ts) |}
  end.

(** The documents whose sections have the key [h]. *)
Definition documents_with (h : str) (hs : list handoff_file) : list handoff_file :=
  filter (fun f => Dict.mem (sections (parse_handoff f)) h) hs.

(** The documents that give the section [h] a label other than unknown. *)
Definition documents_rating (h : str) (hs : list handoff_file) : list handoff_file :=
  filter (fun f => match Dict.get (sections (parse_handoff f)) h with
                   | Some body => negb (level_eqb (confidence_of body) Unknown)
                   | None => false
                   end) hs.

Definition trend_total (t : trend) : Z := high t + medium t + low t.

(** The modification times the aggregation sees. *)
Definition stamps_of (hs : list handoff_file) : list datetime :=
  map (fun f => modified (parse_handoff f)) hs.

(** The rate the summary shows, when it shows one. *)
Definition rate_of (d : data) : option Q :=
  match time_span d with
  | Some sp =>
      if duration_days sp >? 0
      then Some (Qdiv (inject_Z (total_handoffs d)) (inject_Z (duration_days sp)))
      else None
  | None => None
  end.

(** The lines of the summary, in order. *)
Definition summary_lines (d : data) : list out :=
  [Banner "Handoff Analytics Summary";
   TotalHandoffs (total_handoffs d);
   TotalIssues (Py.len (issues d))]
  ++ match time_span d with
     | Some sp => [TimeSpanLine (span_start sp) (span_end sp);
                   DurationLine (duration_days sp)]
     | None => []
     end
  ++ match rate_of d with
     | Some freq => [FrequencyLine freq]
     | None => []
     end
  ++ [Banner "Most Common Sections"]
  ++ map (fun item => SectionBar (firstn 30 (fst item)) (snd item * 2) (snd item))
         (most_common_n 10 (sections_frequency d))
  ++ [Banner "Issues Summary"]
  ++ map (fun item => IssueTypeCount (fst item) (snd item))
         (most_common (fold_left counter_incr
                         (map (fun i => type_name (type i)) (issues d))
                         (Dict.empty Z))).

(** Descending order of the sort keys. *)
Definition above (A : Type) (key : A -> Z) (a b : A) : Prop := key b <= key a.




(** *** Further reference definitions *)

(** [s] neither starts nor ends with a whitespace character. *)
Definition trimmed (s : str) : bool :=
  match s with
  | [] => true
  | c :: _ => negb (Py.isspace c) && negb (Py.isspace (last s c))
  end.

(** [tok] has the shape of the timestamp pattern, class by class. *)
Definition token_shape (tok : str) : Prop :=
  Forall2 (fun (cls : N -> bool) c => cls c = true) timestamp_pattern tok.

(** [tok] occurs in [name] after [pre]. *)
Definition occurs_at (pre tok name : str) : Prop :=
  exists post, name = pre ++ tok ++ post.


(** No section of the document carries a confidence marker. *)
Definition unmarked (f : handoff_file) : Prop :=
  Forall (fun kv => confidence_of (snd kv) = Unknown) (sections (parse_handoff f)).

(** The counts of a trend are sound: none is negative and one at least is
    positive. *)
Definition counted (t : trend) : Prop :=
  0 <= high t /\ 0 <= medium t /\ 0 <= low t /\ 1 <= trend_total t.

(** The entries of the timeline among printed lines. *)
Definition is_entry (o : out) : bool :=
  match o with TimelineEntry _ _ _ => true | _ => false end.


(** The section bars and the confidence blocks among printed lines. *)
Definition is_bar (o : out) : bool :=
  match o with SectionBar _ _ _ => true | _ => false end.

Definition is_block (o : out) : bool :=
  match o with ConfidenceBlock _ _ _ _ _ => true | _ => false end.

(** The share of a count in a trend, in percent. *)
Definition percent (count : Z) (t : trend) : Q :=
  (Qdiv (inject_Z count) (inject_Z (high t + medium t + low t)) * 100)%Q.

(** The issue lines among printed lines. *)
Definition is_issue_line (o : out) : bool :=
  match o with IssueLine _ _ => true | _ => false end.

(** The groups the issue listing goes through. *)
Definition issue_groups (d : data) : dict (list issue) :=
  fold_left group_issue (issues d) (Dict.empty (list issue)).

(** *** Sample inputs *)

(** A file system that refuses nothing. *)
Definition no_faults : faults :=
  {| read_error := fun _ => None; write_error := fun _ => None |}.



(** A body with both a high and a low marker. *)
Definition mixed_body : str :=
  CHECK_MARK ++ u " shipped, but low confidence on timing".

Definition mixed_sections : dict str := [(u "Status", mixed_body)].

(** A document whose heading "Plan" comes twice, after a line of preamble. *)
Definition repeated_doc : str :=
  text_of ["intro"; "## Plan"; "first"; "## Risks"; "- none"; "## Plan"; "second"]%string.

(** A document whose two headings are empty once trimmed. *)
Definition nameless_doc : str := text_of ["## "; "x"; "## "; "y"]%string.

(** Two documents modified on the same day, at 09:00 and at 19:00. *)
Definition morning_file : handoff_file :=
  {| file_name := u "AI_Continuation_Document-05Jan2025-0900.md";
     file_text := text_of ["## Project Identity"; "Demo project"]%string;
     file_mtime := 32400000000 |}.

Definition evening_file : handoff_file :=
  {| file_name := u "AI_Continuation_Document-05Jan2025-1900.md";
     file_text := text_of ["## Project Identity"; "Demo project"]%string;
     file_mtime := 68400000000 |}.

Definition same_day_corpus : list handoff_file := [evening_file; morning_file].

(** A file system on which the newer of two documents cannot be decoded,
    and one that refuses to write the report. *)
Definition evening_unreadable : faults :=
  {| read_error := fun f => if Py.str_eqb (file_name f) (file_name evening_file)
                            then Some UnicodeDecodeError else None;
     write_error := fun _ => None |}.

Definition report_refused : faults :=
  {| read_error := fun _ => None;
     write_error := fun p => if Py.str_eqb p (u "handoff-report.html")
                             then Some OSError else None |}.

(** A corpus of one document that lists no risk and no bug. *)
Definition quiet_file : handoff_file :=
  {| file_name := u "AI_Continuation_Document-05Jan2025-1430.md";
     file_text := text_of ["# Handoff"; "## Project Identity"; "Demo project"]%string;
     file_mtime := 0 |}.

(** *** String and dictionary facts *)

Lemma str_eqb_eq (a b : str) : Py.str_eqb a b = true <-> a = b.
Proof.
  revert b; induction a as [|x a IH]; intros [|y b]; simpl; split;
    try discriminate; try reflexivity.
  - intros H. apply andb_true_iff in H as [Hx Hr].
    apply N.eqb_eq in Hx. apply IH in Hr. now subst.
  - intros H. injection H as -> ->.
    apply andb_true_iff; split; [apply N.eqb_refl | now apply IH].
Qed.

Lemma str_eqb_refl (a : str) : Py.str_eqb a a = true.
Proof. now apply str_eqb_eq. Qed.

Lemma str_eqb_neq (a b : str) : Py.str_eqb a b = false <-> a <> b.
Proof.
  split.
  - intros H E. apply str_eqb_eq in E. congruence.
  - intros H. destruct (Py.str_eqb a b) eqn:E; [|reflexivity].
    apply str_eqb_eq in E. contradiction.
Qed.

Lemma str_eqb_sym (a b : str) : Py.str_eqb a b = Py.str_eqb b a.
Proof.
  destruct (Py.str_eqb a b) eqn:E.
  - apply str_eqb_eq in E. subst. symmetry. apply str_eqb_refl.
  - symmetry. apply str_eqb_neq. apply str_eqb_neq in E. congruence.
Qed.

(** Case analysis on whether two keys are the same string. *)
Ltac str_cases a b :=
  let E := fresh "E" in
  destruct (Py.str_eqb a b) eqn:E;
  [apply str_eqb_eq in E; try subst
  |pose proof (proj1 (str_eqb_neq a b) E)].

Lemma startswith_spec (p s : str) :
  Py.startswith p s = true <-> exists post, s = p ++ post.
Proof.
  revert s. induction p as [|x p IH]; intros s; simpl.
  - split; [intros _; now exists s | reflexivity].
  - destruct s as [|y s].
    + split; [discriminate | intros [post H]; discriminate].
    + rewrite andb_true_iff, N.eqb_eq, IH. split.
      * intros [-> [post ->]]. now exists post.
      * intros [post H]. injection H as -> ->.
        split; [reflexivity | now exists post].
Qed.

Lemma contains_spec (sub s : str) : Py.contains sub s = true <-> substring sub s.
Proof.
  split.
  - induction s as [|c s IH]; simpl; rewrite orb_true_iff; intros [H|H];
      try discriminate.
    + apply startswith_spec in H as [post ->]. now exists [], post.
    + apply startswith_spec in H as [post H]. exists [], post. exact H.
    + destruct (IH H) as (pre & post & ->). now exists (c :: pre), post.
  - intros (pre & post & ->). induction pre as [|c pre IH].
    + simpl app.
      assert (Py.startswith sub (sub ++ post) = true) as Hs
        by (apply startswith_spec; now exists post).
      destruct (sub ++ post); simpl; simpl in Hs; rewrite Hs; reflexivity.
    + simpl. rewrite IH. apply orb_true_r.
Qed.

Section DictFacts.
Variable V : Type.
Implicit Types (d : dict V) (k : str) (v : V).

Lemma get_set_same d k v : Dict.get (Dict.set d k v) k = Some v.
Proof.
  induction d as [|[k' v'] d IH]; simpl.
  - now rewrite str_eqb_refl.
  - destruct (Py.str_eqb k' k) eqn:E; simpl; rewrite E; auto.
Qed.

Lemma get_set_other d k k' v :
  k <> k' -> Dict.get (Dict.set d k' v) k = Dict.get d k.
Proof.
  intros Hne. induction d as [|[k0 v0] d IH]; simpl.
  - apply str_eqb_neq in Hne. rewrite str_eqb_sym in Hne. now rewrite Hne.
  - destruct (Py.str_eqb k0 k') eqn:E; simpl.
    + apply str_eqb_eq in E. subst k0.
      assert (Py.str_eqb k' k = false) as ->
        by (apply str_eqb_neq; congruence).
      reflexivity.
    + now rewrite IH.
Qed.

Lemma get_none_iff d k :
  Dict.get d k = None <-> key_in k (Dict.keys d) = false.
Proof.
  induction d as [|[k' v'] d IH]; simpl; [tauto|].
  destruct (Py.str_eqb k' k); simpl; [split; discriminate | exact IH].
Qed.

Lemma mem_keys d k : Dict.mem d k = key_in k (Dict.keys d).
Proof.
  unfold Dict.mem. induction d as [|[k' v'] d IH]; simpl; [reflexivity|].
  destruct (Py.str_eqb k' k); simpl; auto.
Qed.

Lemma keys_set d k v :
  Dict.keys (Dict.set d k v) =
  if Dict.mem d k then Dict.keys d else Dict.keys d ++ [k].
Proof.
  unfold Dict.mem. induction d as [|[k' v'] d IH]; simpl; [reflexivity|].
  destruct (Py.str_eqb k' k) eqn:E; simpl; [reflexivity|].
  rewrite IH. now destruct (Dict.get d k).
Qed.

Lemma set_fresh d k v :
  Dict.mem d k = false -> Dict.set d k v = d ++ [(k, v)].
Proof.
  unfold Dict.mem. induction d as [|[k' v'] d IH]; simpl; [reflexivity|].
  destruct (Py.str_eqb k' k); [discriminate|].
  intros H. now rewrite IH.
Qed.

Lemma get_map (W : Type) (g : V -> W) d k :
  Dict.get (map (fun kv => (fst kv, g (snd kv))) d) k
  = option_map g (Dict.get d k).
Proof.
  induction d as [|[k' a] d IH]; simpl; [reflexivity|].
  now destruct (Py.str_eqb k' k).
Qed.
End DictFacts.

Lemma key_in_app k ks ks' : key_in k (ks ++ ks') = key_in k ks || key_in k ks'.
Proof. unfold key_in. apply existsb_app. Qed.

Lemma distinct_snoc ks k :
  distinct ks = true -> key_in k ks = false -> distinct (ks ++ [k]) = true.
Proof.
  induction ks as [|k0 ks IH]; simpl; [reflexivity|].
  intros Hd Hk. apply andb_true_iff in Hd as [H0 Hd].
  apply orb_false_iff in Hk as [Hk0 Hk].
  rewrite key_in_app, IH by assumption. simpl.
  rewrite str_eqb_sym, Hk0. simpl.
  rewrite orb_false_r, andb_true_r. exact H0.
Qed.

Lemma distinct_mid a k b :
  distinct (a ++ k :: b) = true -> key_in k a = false.
Proof.
  induction a as [|x a IH]; simpl; [reflexivity|].
  intros H. apply andb_true_iff in H as [Hx Hd].
  apply negb_true_iff in Hx. rewrite key_in_app in Hx.
  apply orb_false_iff in Hx as [_ Hx]. simpl in Hx.
  apply orb_false_iff in Hx as [Hx _].
  rewrite str_eqb_sym, Hx. simpl. now apply IH.
Qed.

Lemma distinct_set (V : Type) (d : dict V) k v :
  distinct (Dict.keys d) = true -> distinct (Dict.keys (Dict.set d k v)) = true.
Proof.
  intros Hd. rewrite keys_set. destruct (Dict.mem d k) eqn:E; [assumption|].
  apply distinct_snoc; [assumption|]. now rewrite <- mem_keys.
Qed.

(** Filling a dictionary from the items of another, key by key, yields
    its items in the same order. *)
Lemma fold_set_map (A B : Type) (g : A -> B) (items : dict A) (acc : dict B) :
  distinct (Dict.keys acc ++ Dict.keys items) = true ->
  fold_left (fun d (kv : str * A) => Dict.set d (fst kv) (g (snd kv))) items acc
  = acc ++ map (fun kv => (fst kv, g (snd kv))) items.
Proof.
  revert acc. induction items as [|[k a] items IH]; intros acc Hd; simpl.
  - now rewrite app_nil_r.
  - simpl in Hd. rewrite set_fresh.
    + rewrite IH.
      * now rewrite <- app_assoc.
      * unfold Dict.keys in *. rewrite map_app. simpl. now rewrite <- app_assoc.
    + rewrite mem_keys. now apply distinct_mid in Hd.
Qed.

(** *** The parser *)

(** From any state of the loop, what is stored at the end is the pending
    section, completed with the lines up to the next heading, followed by
    the blocks of the remaining lines. *)
Lemma parse_from_state (lines : list str) (st : parse_state) :
  store_section (fold_left parse_line lines st) =
  match current_section st with
  | Some h =>
      store_blocks (ps_sections st)
        ((h, Py.strip (Py.join NL (current_content st ++ body_lines lines)))
           :: blocks lines)
  | None => store_blocks (ps_sections st) (blocks lines)
  end.
Proof.
  revert st. induction lines as [|l rest IH]; intros st.
  - simpl. unfold store_section.
    destruct (current_section st) as [h|]; simpl; [|reflexivity].
    now rewrite app_nil_r.
  - simpl fold_left. rewrite IH. unfold parse_line.
    simpl body_lines. simpl blocks. unfold is_heading.
    destruct (Py.startswith heading_marker l) eqn:Hl; simpl.
    + unfold store_section, heading_of.
      destruct (current_section st) as [h|]; simpl; [|reflexivity].
      now rewrite app_nil_r.
    + destruct (current_section st) as [h|]; simpl; [|reflexivity].
      now rewrite <- app_assoc.
Qed.

Lemma parse_lines_blocks (lines : list str) :
  parse_lines lines = store_blocks (Dict.empty str) (blocks lines).
Proof. unfold parse_lines. now rewrite parse_from_state. Qed.

Lemma get_store_blocks (bs : list (str * str)) (d : dict str) (h : str) :
  Py.truthy h = true ->
  Dict.get (store_blocks d bs) h =
  match last_body bs h with
  | Some b => Some b
  | None => Dict.get d h
  end.
Proof.
  intros Hh. unfold store_blocks, last_body.
  induction bs as [|[k b] bs IH] using rev_ind; [reflexivity|].
  rewrite !fold_left_app. simpl.
  str_cases k h.
  - rewrite Hh. now rewrite get_set_same.
  - destruct (Py.truthy k).
    + rewrite get_set_other by congruence. apply IH.
    + apply IH.
Qed.

Lemma keys_store_blocks (bs : list (str * str)) (d : dict str) :
  Dict.keys (store_blocks d bs) =
  fold_left (fun seen k => if key_in k seen then seen else seen ++ [k])
            (filter Py.truthy (map fst bs)) (Dict.keys d).
Proof.
  revert d. induction bs as [|[k b] bs IH]; intros d; [reflexivity|].
  unfold store_blocks in *. simpl.
  destruct (Py.truthy k); simpl; rewrite IH; [|reflexivity].
  now rewrite keys_set, mem_keys.
Qed.

Lemma distinct_store_blocks (bs : list (str * str)) (d : dict str) :
  distinct (Dict.keys d) = true ->
  distinct (Dict.keys (store_blocks d bs)) = true.
Proof.
  revert d. induction bs as [|[k b] bs IH]; intros d Hd; [assumption|].
  unfold store_blocks in *. simpl.
  destruct (Py.truthy k); apply IH; [now apply distinct_set | assumption].
Qed.

(** The parser never yields a key twice. *)
Lemma distinct_parse (content : str) :
  distinct (Dict.keys (parse_sections content)) = true.
Proof.
  unfold parse_sections. rewrite parse_lines_blocks.
  now apply distinct_store_blocks.
Qed.

Lemma blocks_preamble (pre lines : list str) :
  forallb (fun l => negb (is_heading l)) pre = true ->
  blocks (pre ++ lines) = blocks lines.
Proof.
  induction pre as [|l pre IH]; simpl; [reflexivity|].
  intros H. apply andb_true_iff in H as [Hl Hpre].
  apply negb_true_iff in Hl. rewrite Hl. auto.
Qed.

(** C2, as amended: for every document text and every heading [h] that is
    not empty once trimmed, the sections mapping holds at [h] the body of
    the last block headed [h] (blocks start at the lines that begin with
    "## "), and nothing when no block is headed [h]; and lines without
    the heading marker put before a document change nothing: the material
    before the first heading reaches no section. *)
Theorem last_heading_wins (content h : str) (pre lines : list str) :
  Py.truthy h = true ->
  forallb (fun l => negb (is_heading l)) pre = true ->
  Dict.get (parse_sections content) h
    = last_body (blocks (Py.split NL content)) h
  /\ parse_lines (pre ++ lines) = parse_lines lines.
Proof.
  intros Hh Hpre. split.
  - unfold parse_sections.
    rewrite parse_lines_blocks, get_store_blocks by assumption.
    now destruct (last_body _ h).
  - now rewrite !parse_lines_blocks, blocks_preamble.
Qed.

Lemma keys_parse_sections (content : str) :
  Dict.keys (parse_sections content) =
  first_seen (filter Py.truthy (map fst (blocks (Py.split NL content)))).
Proof.
  unfold parse_sections. rewrite parse_lines_blocks. apply keys_store_blocks.
Qed.

(** *** The confidence classifier *)

Lemma extract_confidence_levels_map (secs : dict str) :
  distinct (Dict.keys secs) = true ->
  extract_confidence_levels secs =
  map (fun kv => (fst kv, confidence_of (snd kv))) secs.
Proof.
  intros Hd. unfold extract_confidence_levels.
  now rewrite (fold_set_map confidence_of).
Qed.

Lemma marker_reflect (m kw content : str) :
  Py.contains m content || Py.contains kw (lower content) = true <->
  substring m content \/ substring kw (lower content).
Proof. now rewrite orb_true_iff, !contains_spec. Qed.

(** Each label is given exactly when its rule is the first that applies. *)
Lemma confidence_of_spec (content : str) :
  (confidence_of content = High <-> has_high content) /\
  (confidence_of content = Low <-> ~ has_high content /\ has_low content) /\
  (confidence_of content = Medium <->
     ~ has_high content /\ ~ has_low content /\ has_medium content) /\
  (confidence_of content = Unknown <->
     ~ has_high content /\ ~ has_low content /\ ~ has_medium content).
Proof.
  unfold confidence_of, has_high, has_low, has_medium.
  pose proof (marker_reflect CHECK_MARK (u "high confidence") content) as Hh.
  pose proof (marker_reflect QUESTION_MARK (u "low confidence") content) as Hl.
  pose proof (marker_reflect WARNING_SIGN (u "medium confidence") content) as Hm.
  destruct (Py.contains CHECK_MARK content || _);
    destruct (Py.contains QUESTION_MARK content || _);
    destruct (Py.contains WARNING_SIGN content || _);
    intuition (try discriminate; try congruence).
Qed.

(** C1: for every section of a document, the label the classifier stores
    for it is decided by the rules high, low, medium, unknown in that
    order, the first that applies winning: high exactly when the body has
    a high marker, low exactly when it has a low marker and no high
    marker, medium exactly when it has a medium marker and neither of the
    former, unknown otherwise. In particular a body with both a high and
    a low marker is labelled high. *)
Theorem confidence_priority (secs : dict str) (name content : str) :
  distinct (Dict.keys secs) = true ->
  Dict.get secs name = Some content ->
  exists lbl,
    Dict.get (extract_confidence_levels secs) name = Some lbl /\
    (lbl = High <-> has_high content) /\
    (lbl = Low <-> ~ has_high content /\ has_low content) /\
    (lbl = Medium <->
       ~ has_high content /\ ~ has_low content /\ has_medium content) /\
    (lbl = Unknown <->
       ~ has_high content /\ ~ has_low content /\ ~ has_medium content) /\
    (has_high content -> has_low content -> lbl = High).
Proof.
  intros Hd Hget. exists (confidence_of content).
  rewrite extract_confidence_levels_map, get_map, Hget by assumption.
  destruct (confidence_of_spec content) as (H1 & H2 & H3 & H4).
  repeat split; try tauto; try apply H1; try apply H2; try apply H3;
    try apply H4.
Qed.

(** *** The issue extractor *)

Lemma scan_risk_fold (lines : list str) (found : list raw_issue) :
  fold_left scan_risk lines found =
  found ++ map (fun line => {| raw_type := risk;
                               raw_description := without_bullet line |})
               (filter bulleted lines).
Proof.
  revert found. induction lines as [|l lines IH]; intros found.
  - simpl. now rewrite app_nil_r.
  - cbn [fold_left filter]. rewrite IH. unfold scan_risk.
    change (Py.startswith (u "-") (Py.strip l)
            || Py.startswith (u "*") (Py.strip l)) with (bulleted l).
    change (Py.strip (skipn 1 (Py.strip l))) with (without_bullet l).
    destruct (bulleted l); cbn [map]; [now rewrite <- app_assoc | reflexivity].
Qed.

Lemma mentions_defect_keywords (line : str) :
  existsb (fun keyword => Py.contains keyword (lower line)) bug_keywords
  = mentions_defect line.
Proof.
  unfold mentions_defect, bug_keywords. simpl existsb.
  now rewrite orb_false_r, !orb_assoc.
Qed.

Lemma scan_bug_fold (lines : list str) (found : list raw_issue) :
  fold_left scan_bug lines found =
  found ++ map (fun line => {| raw_type := bug;
                               raw_description := without_bullet line |})
               (filter (fun line => mentions_defect line && bulleted line) lines).
Proof.
  revert found. induction lines as [|l lines IH]; intros found.
  - simpl. now rewrite app_nil_r.
  - cbn [fold_left filter]. rewrite IH. unfold scan_bug.
    rewrite mentions_defect_keywords.
    change (existsb (fun p => Py.startswith p (Py.strip l)) [u "-"; u "*"])
      with (Py.startswith (u "-") (Py.strip l)
            || (Py.startswith (u "*") (Py.strip l) || false)).
    rewrite orb_false_r.
    change (Py.startswith (u "-") (Py.strip l)
            || Py.startswith (u "*") (Py.strip l)) with (bulleted l).
    change (Py.strip (skipn 1 (Py.strip l))) with (without_bullet l).
    destruct (mentions_defect l); [|reflexivity]. cbn [andb].
    destruct (bulleted l); cbn [map]; [now rewrite <- app_assoc | reflexivity].
Qed.

Lemma extract_issues_scans (secs : dict str) :
  extract_issues secs =
    risks_of (section_body secs "What Could Go Wrong")
    ++ bugs_of (section_body secs "Current System State").
Proof.
  unfold extract_issues, risks_of, bugs_of, section_body, Dict.get_default.
  now rewrite scan_bug_fold, scan_risk_fold.
Qed.

Lemma bugs_of_empty : bugs_of [] = [].
Proof. unfold bugs_of. simpl. now rewrite andb_false_r. Qed.

(** C3: for every sections mapping, the issue extractor returns one risk
    per bulleted line of the section "What Could Go Wrong", in line order,
    followed by one bug per line of the section "Current System State"
    that mentions a defect keyword in its lowercase form and is bulleted;
    a line is bulleted when its trimmed form starts with "-" or "*", and
    the description is the trimmed line without its first character,
    trimmed again. The result depends on no other section, and a section
    that is missing counts as an empty body, which yields no issue. *)
Theorem extract_issues_spec (secs : dict str) :
  extract_issues secs =
    risks_of (section_body secs "What Could Go Wrong")
    ++ bugs_of (section_body secs "Current System State")
  /\ risks_of [] = []
  /\ bugs_of [] = [].
Proof.
  split; [apply extract_issues_scans|].
  split; [reflexivity | apply bugs_of_empty].
Qed.

(** *** The aggregation loop *)

Lemma analyze_fold (hs : list handoff_file) (d0 : data) (ts0 : list datetime) :
  fold_left analyze_step hs (d0, ts0) =
  ({| total_handoffs := total_handoffs d0;
      time_span := time_span d0;
      handoffs := handoffs d0 ++ map parse_handoff hs;
      issues := fold_issues hs (issues d0);
      confidence_trends := fold_trends hs (confidence_trends d0);
      sections_frequency := fold_frequency hs (sections_frequency d0) |},
   ts0 ++ stamps_of hs).
Proof.
  revert d0 ts0. induction hs as [|f hs IH]; intros d0 ts0.
  - destruct d0; simpl. now rewrite !app_nil_r.
  - simpl fold_left.
    destruct (analyze_step (d0, ts0) f) as [d1 ts1] eqn:E.
    rewrite IH. unfold analyze_step in E. injection E as <- <-. simpl.
    now rewrite <- !app_assoc.
Qed.

(** What [analyze_handoffs] returns, field by field. *)
Lemma analyze_fields (hs : list handoff_file) :
  analyze_handoffs hs =
  {| total_handoffs := Py.len hs;
     time_span := span_of (stamps_of hs);
     handoffs := map parse_handoff hs;
     issues := fold_issues hs [];
     confidence_trends := fold_trends hs (Dict.empty trend);
     sections_frequency := fold_frequency hs (Dict.empty Z) |}.
Proof.
  destruct hs as [|f hs]; [reflexivity|].
  unfold analyze_handoffs. rewrite analyze_fold. reflexivity.
Qed.

Lemma counter_get_incr (c : dict Z) (k h : str) :
  counter_get (counter_incr c k) h =
  counter_get c h + (if Py.str_eqb k h then 1 else 0).
Proof.
  unfold counter_get, counter_incr, Dict.get_default.
  str_cases k h.
  - now rewrite get_set_same.
  - rewrite get_set_other by congruence. lia.
Qed.

(** Counting distinct keys adds one at each of them. *)
Lemma count_keys (ks : list str) (c : dict Z) (h : str) :
  distinct ks = true ->
  counter_get (fold_left counter_incr ks c) h =
  counter_get c h + (if key_in h ks then 1 else 0).
Proof.
  revert c. induction ks as [|k ks IH]; intros c Hd; simpl; [lia|].
  simpl in Hd. apply andb_true_iff in Hd as [Hk Hd]. apply negb_true_iff in Hk.
  rewrite IH, counter_get_incr by assumption.
  change (key_in h (k :: ks)) with (Py.str_eqb k h || key_in h ks).
  str_cases k h; simpl.
  - rewrite Hk. lia.
  - destruct (key_in h ks); lia.
Qed.

Lemma trend_get_track (t : dict trend) (k h : str) (l : level) :
  trend_total (Dict.get_default (track_confidence t (k, l)) h zero_trend) =
  trend_total (Dict.get_default t h zero_trend) +
  (if Py.str_eqb k h && negb (level_eqb l Unknown) then 1 else 0).
Proof.
  unfold track_confidence, Dict.get_default.
  destruct l; simpl; rewrite ?andb_false_r, ?andb_true_r; try lia;
    (str_cases k h;
     [rewrite get_set_same; unfold trend_total; simpl; lia
     |rewrite get_set_other by congruence; lia]).
Qed.

(** Tracking the labels of one document adds one at each section whose
    label is not unknown. *)
Lemma track_levels (confs : dict level) (t : dict trend) (h : str) :
  distinct (Dict.keys confs) = true ->
  trend_total (Dict.get_default (fold_left track_confidence confs t) h zero_trend) =
  trend_total (Dict.get_default t h zero_trend) +
  match Dict.get confs h with
  | Some l => if level_eqb l Unknown then 0 else 1
  | None => 0
  end.
Proof.
  revert t. induction confs as [|[k l] confs IH]; intros t Hd; [simpl; lia|].
  simpl in Hd. apply andb_true_iff in Hd as [Hk Hd]. apply negb_true_iff in Hk.
  change (fold_left track_confidence ((k, l) :: confs) t)
    with (fold_left track_confidence confs (track_confidence t (k, l))).
  rewrite IH, trend_get_track by assumption.
  change (Dict.get ((k, l) :: confs) h)
    with (if Py.str_eqb k h then Some l else Dict.get confs h).
  str_cases k h; simpl.
  - assert (Dict.get confs h = None) as -> by now apply get_none_iff.
    destruct (level_eqb l Unknown); simpl; lia.
  - lia.
Qed.

Lemma filter_length_mono (A : Type) (p q : A -> bool) (l : list A) :
  (forall x, p x = true -> q x = true) ->
  (List.length (filter p l) <= List.length (filter q l))%nat.
Proof.
  intros H. induction l as [|x l IH]; simpl; [lia|].
  destruct (p x) eqn:Hp.
  - rewrite (H x Hp). simpl. lia.
  - destruct (q x); simpl; lia.
Qed.

Lemma fold_frequency_count (hs : list handoff_file) (c : dict Z) (h : str) :
  counter_get (fold_frequency hs c) h =
  counter_get c h + Py.len (documents_with h hs).
Proof.
  unfold fold_frequency, documents_with, Py.len.
  revert c. induction hs as [|f hs IH]; intros c; simpl; [lia|].
  rewrite IH, count_keys by apply distinct_parse.
  rewrite mem_keys. destruct (key_in h _); simpl List.length; lia.
Qed.

Lemma fold_trends_count (hs : list handoff_file) (t : dict trend) (h : str) :
  trend_total (Dict.get_default (fold_trends hs t) h zero_trend) =
  trend_total (Dict.get_default t h zero_trend) + Py.len (documents_rating h hs).
Proof.
  unfold fold_trends, documents_rating, Py.len.
  revert t. induction hs as [|f hs IH]; intros t; simpl; [lia|].
  rewrite IH, track_levels.
  - rewrite extract_confidence_levels_map, get_map by apply distinct_parse.
    destruct (Dict.get (parse_sections (file_text f)) h) as [body|]; simpl; [|lia].
    destruct (level_eqb (confidence_of body) Unknown); simpl List.length; lia.
  - rewrite extract_confidence_levels_map by apply distinct_parse.
    unfold Dict.keys. rewrite map_map. simpl. apply distinct_parse.
Qed.

(** C5: for every corpus and every heading [h], the aggregated section
    frequency of [h] is the number of documents whose sections mapping
    has the key [h], and so it never exceeds the number of documents. *)
Theorem section_frequency_counts (hs : list handoff_file) (h : str) :
  counter_get (sections_frequency (analyze_handoffs hs)) h
    = Py.len (documents_with h hs)
  /\ counter_get (sections_frequency (analyze_handoffs hs)) h
     <= total_handoffs (analyze_handoffs hs).
Proof.
  rewrite analyze_fields. simpl. rewrite fold_frequency_count.
  change (counter_get (Dict.empty Z) h) with 0.
  split; [lia|]. unfold documents_with, Py.len.
  pose proof (List.filter_length_le
                (fun f => Dict.mem (sections (parse_handoff f)) h) hs).
  lia.
Qed.

(** C6: for every corpus and every heading [h], the counts high, medium
    and low of the confidence trends at [h] add up to the number of
    documents that give the section [h] a label other than unknown, one
    per document, and so never to more than the section frequency of
    [h]. *)
Theorem confidence_within_frequency (hs : list handoff_file) (h : str) :
  let t := Dict.get_default (confidence_trends (analyze_handoffs hs)) h zero_trend in
  high t + medium t + low t = Py.len (documents_rating h hs)
  /\ high t + medium t + low t
     <= counter_get (sections_frequency (analyze_handoffs hs)) h.
Proof.
  rewrite analyze_fields. simpl.
  pose proof (fold_trends_count hs (Dict.empty trend) h) as Ht.
  unfold trend_total in Ht at 1. rewrite Ht.
  rewrite fold_frequency_count.
  change (counter_get (Dict.empty Z) h) with 0.
  change (trend_total (Dict.get_default (Dict.empty trend) h zero_trend)) with 0.
  split; [lia|]. unfold documents_rating, documents_with, Py.len.
  assert (forall f,
             match Dict.get (sections (parse_handoff f)) h with
             | Some body => negb (level_eqb (confidence_of body) Unknown)
             | None => false
             end = true -> Dict.mem (sections (parse_handoff f)) h = true) as Himp.
  { intros f. unfold Dict.mem.
    now destruct (Dict.get (sections (parse_handoff f)) h). }
  pose proof (filter_length_mono _ _ hs Himp). lia.
Qed.

(** *** The time span *)

Lemma min_of_spec (ts : list datetime) (t : datetime) :
  In (min_of t ts) (t :: ts) /\ forall x, In x (t :: ts) -> min_of t ts <= x.
Proof.
  unfold min_of. revert t. induction ts as [|y ts IH]; intros t; simpl.
  - split; [now left | intros x [<-|[]]; lia].
  - destruct (IH (Z.min t y)) as [Hin Hle]. split.
    + destruct Hin as [Hin|Hin]; [|now right; right].
      rewrite <- Hin. destruct (Z.min_spec t y) as [[_ ->]|[_ ->]]; auto.
    + intros x [<-|[<-|Hx]].
      * etransitivity; [apply Hle; now left | apply Z.le_min_l].
      * etransitivity; [apply Hle; now left | apply Z.le_min_r].
      * apply Hle. now right.
Qed.

Lemma max_of_spec (ts : list datetime) (t : datetime) :
  In (max_of t ts) (t :: ts) /\ forall x, In x (t :: ts) -> x <= max_of t ts.
Proof.
  unfold max_of. revert t. induction ts as [|y ts IH]; intros t; simpl.
  - split; [now left | intros x [<-|[]]; lia].
  - destruct (IH (Z.max t y)) as [Hin Hle]. split.
    + destruct Hin as [Hin|Hin]; [|now right; right].
      rewrite <- Hin. destruct (Z.max_spec t y) as [[_ ->]|[_ ->]]; auto.
    + intros x [<-|[<-|Hx]].
      * etransitivity; [apply Z.le_max_l | apply Hle; now left].
      * etransitivity; [apply Z.le_max_r | apply Hle; now left].
      * apply Hle. now right.
Qed.

Lemma timedelta_days_floor (a b : datetime) :
  timedelta_days b a * US_PER_DAY <= b - a
    < (timedelta_days b a + 1) * US_PER_DAY.
Proof.
  unfold timedelta_days, US_PER_DAY.
  pose proof (Z.div_mod (b - a) 86400000000 ltac:(lia)).
  pose proof (Z.mod_pos_bound (b - a) 86400000000 ltac:(lia)).
  lia.
Qed.

Lemma same_day_zero (a b : datetime) :
  a <= b -> date_of a = date_of b -> timedelta_days b a = 0.
Proof.
  unfold date_of, timedelta_days, US_PER_DAY. intros Hle Hd.
  apply Z.div_small.
  pose proof (Z.div_mod a 86400000000 ltac:(lia)).
  pose proof (Z.div_mod b 86400000000 ltac:(lia)).
  pose proof (Z.mod_pos_bound a 86400000000 ltac:(lia)).
  pose proof (Z.mod_pos_bound b 86400000000 ltac:(lia)).
  lia.
Qed.

(** C7: for every corpus, the snapshot has no time span exactly when it
    counts zero documents; when it has one, its start is the least and
    its end the greatest modification time of the corpus, its duration
    is the number of whole days in end minus start (rounded down), which
    is never negative and is zero when all documents were modified on one
    calendar day. *)
Theorem time_span_extremes (hs : list handoff_file) :
  (time_span (analyze_handoffs hs) = None
   <-> total_handoffs (analyze_handoffs hs) = 0)
  /\ forall sp, time_span (analyze_handoffs hs) = Some sp ->
       In (span_start sp) (stamps_of hs)
       /\ (forall t, In t (stamps_of hs) -> span_start sp <= t)
       /\ In (span_end sp) (stamps_of hs)
       /\ (forall t, In t (stamps_of hs) -> t <= span_end sp)
       /\ duration_days sp * US_PER_DAY <= span_end sp - span_start sp
            < (duration_days sp + 1) * US_PER_DAY
       /\ 0 <= duration_days sp
       /\ ((forall t t', In t (stamps_of hs) -> In t' (stamps_of hs) ->
                         date_of t = date_of t')
           -> duration_days sp = 0).
Proof.
  rewrite analyze_fields. cbn [time_span total_handoffs]. split.
  - destruct hs as [|f hs]; unfold Py.len; simpl; split;
      try discriminate; try reflexivity; lia.
  - intros sp Hsp. destruct (stamps_of hs) as [|t ts]; [discriminate|].
    injection Hsp as <-. cbn [span_start span_end duration_days].
    destruct (min_of_spec ts t) as [Hmin_in Hmin].
    destruct (max_of_spec ts t) as [Hmax_in Hmax].
    pose proof (Hmin _ Hmax_in) as Hle.
    pose proof (timedelta_days_floor (min_of t ts) (max_of t ts)) as Hfloor.
    repeat split; try assumption; try apply Hfloor.
    + unfold timedelta_days, US_PER_DAY. apply Z.div_pos; lia.
    + intros Hday. apply same_day_zero; [exact Hle|]. now apply Hday.
Qed.

(** *** The console summary *)

Lemma bind_print (A : Type) (o : out) (k : io A) (w : world) :
  bind (print o) (fun _ => k) w
  = k {| stdout := stdout w ++ [o]; files := files w |}.
Proof. reflexivity. Qed.

Lemma bind_ret (A B : Type) (a : A) (k : A -> io B) (w : world) :
  bind (ret a) k w = k a w.
Proof. reflexivity. Qed.

Lemma for_each_print (A : Type) (g : A -> out) (xs : list A) (w : world) :
  for_each xs (fun x => print (g x)) w =
  (inr tt, {| stdout := stdout w ++ map g xs; files := files w |}).
Proof.
  revert w. induction xs as [|x xs IH]; intros w; simpl.
  - destruct w; unfold ret; simpl. now rewrite app_nil_r.
  - rewrite bind_print, IH. simpl. now rewrite <- app_assoc.
Qed.

Lemma bind_for_each_print (A B : Type) (g : A -> out) (xs : list A)
      (k : io B) (w : world) :
  bind (for_each xs (fun x => print (g x))) (fun _ => k) w
  = k {| stdout := stdout w ++ map g xs; files := files w |}.
Proof. unfold bind at 1. now rewrite for_each_print. Qed.


Lemma print_summary_lines (d : data) (w : world) :
  print_summary d w =
  (inr 0, {| stdout := stdout w ++ summary_lines d; files := files w |}).
Proof.
  unfold print_summary, summary_lines, rate_of.
  rewrite !bind_print.
  destruct (time_span d) as [sp|].
  - unfold bind at 1. rewrite !bind_print.
    destruct (duration_days sp >? 0) eqn:Hpos.
    + unfold truediv.
      assert ((duration_days sp =? 0) = false) as -> by lia.
      rewrite bind_ret. unfold print at 1.
      rewrite bind_print, bind_for_each_print, bind_print, bind_for_each_print.
      unfold ret. simpl. now rewrite <- !app_assoc.
    + unfold ret at 1.
      rewrite bind_print, bind_for_each_print, bind_print, bind_for_each_print.
      unfold ret. simpl. now rewrite <- !app_assoc.
  - rewrite bind_ret.
    rewrite bind_print, bind_for_each_print, bind_print, bind_for_each_print.
    unfold ret. simpl. now rewrite <- !app_assoc.
Qed.

Lemma not_in_map (A : Type) (g : A -> out) (xs : list A) (o : out) :
  (forall x, g x <> o) -> ~ In o (map g xs).
Proof.
  intros Hg Hin. apply in_map_iff in Hin as (x & Hx & _). now apply (Hg x).
Qed.

(** C8: for every snapshot, the summary renderer returns without raising
    (the division is never asked for a zero divisor), and it shows a
    documents-per-day rate exactly when the snapshot has a time span of
    strictly positive duration, the rate being the number of documents
    over that duration; with no time span, as with zero documents, or
    with a duration of zero, no rate is computed. *)
Theorem summary_rate_guard (d : data) (w : world) :
  exists lines,
    print_summary d w =
      (inr 0, {| stdout := stdout w ++ lines; files := files w |})
    /\ forall q,
         In (FrequencyLine q) lines <->
         exists sp, time_span d = Some sp /\ 0 < duration_days sp
                    /\ q = Qdiv (inject_Z (total_handoffs d))
                                (inject_Z (duration_days sp)).
Proof.
  exists (summary_lines d). split; [apply print_summary_lines|].
  intros q. unfold summary_lines. rewrite !in_app_iff.
  assert (Hrate : In (FrequencyLine q)
                     match rate_of d with
                     | Some freq => [FrequencyLine freq]
                     | None => []
                     end <->
                  exists sp, time_span d = Some sp /\ 0 < duration_days sp
                             /\ q = Qdiv (inject_Z (total_handoffs d))
                                         (inject_Z (duration_days sp))).
  { unfold rate_of. destruct (time_span d) as [sp|].
    - destruct (duration_days sp >? 0) eqn:Hpos; simpl.
      + split.
        * intros [H|[]]. injection H as <-. exists sp. repeat split. lia.
        * intros (sp' & Hsp & _ & ->). injection Hsp as <-. now left.
      + split; [tauto|]. intros (sp' & Hsp & Hp & _).
        injection Hsp as <-. lia.
    - simpl. split; [tauto|]. intros (sp' & Hsp & _). discriminate. }
  rewrite <- Hrate. split; [|tauto].
  intros [H|[H|[H|[H|[H|[H|H]]]]]]; try exact H; exfalso.
  - simpl in H. intuition discriminate.
  - destruct (time_span d); simpl in H; intuition discriminate.
  - simpl in H. intuition discriminate.
  - revert H. apply not_in_map. discriminate.
  - simpl in H. intuition discriminate.
  - revert H. apply not_in_map. discriminate.
Qed.

(** *** The JSON export *)

(** C9: for every snapshot, the JSON export writes one document, and
    reading that document back gives, as its total, the snapshot's
    number of documents and, as the length of its issue list, the
    snapshot's number of issues. *)
Theorem export_json_roundtrip (d : data) (w : world) :
  exists doc,
    export_json d w =
      (inr 0,
       {| stdout := stdout w
                    ++ [Saved "JSON export saved" (u "handoff-analytics.json")];
          files := files w ++ [(u "handoff-analytics.json", JsonText doc)] |})
    /\ json_int (u "total_handoffs") doc = Some (total_handoffs d)
    /\ json_array_len (u "issues") doc = Some (Py.len (issues d)).
Proof.
  exists (export_data d). split; [reflexivity|]. split; [reflexivity|].
  unfold export_data, json_array_len.
  change (json_member (u "issues") _)
    with (Some (JArr (map issue_json (issues d)))).
  cbv beta iota. unfold Py.len. now rewrite length_map.
Qed.



(** *** Key order downstream of the parser *)

Lemma keys_counter_fold (ks : list str) (c : dict Z) :
  Dict.keys (fold_left counter_incr ks c) =
  fold_left (fun seen k => if key_in k seen then seen else seen ++ [k])
            ks (Dict.keys c).
Proof.
  revert c. induction ks as [|k ks IH]; intros c; [reflexivity|].
  cbn [fold_left]. rewrite IH. unfold counter_incr.
  now rewrite keys_set, mem_keys.
Qed.

Lemma fold_left_concat (A B : Type) (f : A -> B -> A) (ls : list (list B)) (a : A) :
  fold_left f (List.concat ls) a = fold_left (fun a l => fold_left f l a) ls a.
Proof.
  revert a. induction ls as [|l ls IH]; intros a; [reflexivity|].
  simpl. now rewrite fold_left_app, IH.
Qed.

Lemma keys_fold_frequency (hs : list handoff_file) (c : dict Z) :
  Dict.keys (fold_frequency hs c) =
  fold_left (fun seen k => if key_in k seen then seen else seen ++ [k])
            (List.concat (map (fun f => Dict.keys (sections (parse_handoff f))) hs))
            (Dict.keys c).
Proof.
  rewrite fold_left_concat. unfold fold_frequency.
  revert c. induction hs as [|f hs IH]; intros c; [reflexivity|].
  cbn [fold_left map]. now rewrite IH, keys_counter_fold.
Qed.

Section Stable.
Variable A : Type.
Variable key : A -> Z.

Lemma insert_desc_Forall (P : A -> Prop) (x : A) (l : list A) :
  P x -> Forall P l -> Forall P (insert_desc key x l).
Proof.
  intros Hx Hl. induction Hl as [|y l Hy Hl IH]; simpl.
  - now constructor.
  - destruct (key y <? key x); repeat constructor; assumption.
Qed.

Lemma insert_desc_sorted (x : A) (l : list A) :
  StronglySorted (above key) l -> StronglySorted (above key) (insert_desc key x l).
Proof.
  intros Hs. induction Hs as [|y l Hs IH Hy]; simpl.
  - repeat constructor.
  - destruct (key y <? key x) eqn:E.
    + constructor; [now constructor|].
      constructor; [unfold above; lia|].
      eapply Forall_impl; [|exact Hy]. unfold above. intros z Hz. lia.
    + constructor; [exact IH|].
      apply insert_desc_Forall; [unfold above; lia | exact Hy].
Qed.

Lemma sorted_desc_snoc (l : list A) (x : A) :
  sorted_desc key (l ++ [x]) = insert_desc key x (sorted_desc key l).
Proof. unfold sorted_desc. now rewrite fold_left_app. Qed.

Lemma sorted_desc_sorted (l : list A) : StronglySorted (above key) (sorted_desc key l).
Proof.
  induction l as [|x l IH] using rev_ind; [constructor|].
  rewrite sorted_desc_snoc. now apply insert_desc_sorted.
Qed.

Lemma insert_desc_filter (n : Z) (x : A) (l : list A) :
  StronglySorted (above key) l ->
  filter (fun a => key a =? n) (insert_desc key x l) =
  filter (fun a => key a =? n) l ++ (if key x =? n then [x] else []).
Proof.
  intros Hs. induction Hs as [|y l Hs IH Hy]; [reflexivity|].
  cbn [insert_desc]. destruct (key y <? key x) eqn:E.
  - apply Z.ltb_lt in E.
    change (filter (fun a => key a =? n) (x :: y :: l))
      with (if key x =? n
            then x :: filter (fun a => key a =? n) (y :: l)
            else filter (fun a => key a =? n) (y :: l)).
    destruct (key x =? n) eqn:Ex; [|now rewrite app_nil_r].
    apply Z.eqb_eq in Ex.
    assert (filter (fun a => key a =? n) (y :: l) = []) as ->; [|reflexivity].
    assert (Forall (fun a => key a < n) (y :: l)) as Hlow.
    { constructor; [lia|]. eapply Forall_impl; [|exact Hy].
      unfold above. intros z Hz. lia. }
    clear - Hlow. induction Hlow as [|z l' Hz _ IHl]; [reflexivity|].
    cbn [filter]. replace (key z =? n) with false; [exact IHl|].
    symmetry. apply Z.eqb_neq. lia.
  - cbn [filter]. rewrite IH. now destruct (key y =? n).
Qed.

(** The sort is stable: elements with the same key keep their order. *)
Lemma sorted_desc_stable (n : Z) (l : list A) :
  filter (fun a => key a =? n) (sorted_desc key l) =
  filter (fun a => key a =? n) l.
Proof.
  induction l as [|x l IH] using rev_ind; [reflexivity|].
  rewrite sorted_desc_snoc, insert_desc_filter by apply sorted_desc_sorted.
  rewrite IH, filter_app. reflexivity.
Qed.
End Stable.

(** *** Status of the console commands *)










(** *** Trimming *)

Lemma lstrip_spec (s : str) :
  exists ws, s = ws ++ Py.lstrip s
             /\ forallb Py.isspace ws = true
             /\ match Py.lstrip s with
                | [] => True
                | c :: _ => Py.isspace c = false
                end.
Proof.
  induction s as [|c s IH]; simpl.
  - now exists [].
  - destruct (Py.isspace c) eqn:E.
    + destruct IH as (ws & Hs & Hws & Hhd). exists (c :: ws). simpl.
      rewrite E, Hws. repeat split; [now rewrite <- Hs | exact Hhd].
    + exists []. repeat split. exact E.
Qed.

(** What [rstrip] keeps is a beginning of the string and ends with no
    whitespace. *)
Lemma rstrip_spec (s : str) :
  exists ws, s = Py.rstrip s ++ ws
             /\ match rev (Py.rstrip s) with
                | [] => True
                | c :: _ => Py.isspace c = false
                end.
Proof.
  unfold Py.rstrip. destruct (lstrip_spec (rev s)) as (ws & Hs & _ & Hhd).
  exists (rev ws). split.
  - rewrite <- rev_app_distr, <- Hs. now rewrite rev_involutive.
  - now rewrite rev_involutive.
Qed.

Lemma trimmed_strip (s : str) : trimmed (Py.strip s) = true.
Proof.
  unfold Py.strip.
  destruct (lstrip_spec s) as (_ & _ & _ & Hhd).
  destruct (rstrip_spec (Py.lstrip s)) as (ws & Hs & Hlast).
  destruct (Py.rstrip (Py.lstrip s)) as [|c r] eqn:E; [reflexivity|].
  rewrite Hs in Hhd. simpl in Hhd. unfold trimmed. rewrite Hhd.
  destruct (rev (c :: r)) as [|z zs] eqn:Er.
  - apply (f_equal (@rev N)) in Er. rewrite rev_involutive in Er. discriminate.
  - apply (f_equal (@rev N)) in Er. rewrite rev_involutive in Er.
    replace (last (c :: r) c) with z; [now rewrite Hlast|].
    rewrite Er. simpl rev. now rewrite last_last.
Qed.

(** *** Well-formed parser output *)

Lemma Forall_set (V : Type) (P : str * V -> Prop) (d : dict V) (k : str) (v : V) :
  Forall P d -> P (k, v) -> Forall P (Dict.set d k v).
Proof.
  intros Hd Hkv. induction Hd as [|[k' v'] d Hx Hd IH]; simpl.
  - now constructor.
  - str_cases k' k; constructor; auto.
Qed.

Lemma Forall_store_blocks (P : str * str -> Prop) (bs : list (str * str)) (d : dict str) :
  Forall P d ->
  Forall (fun b => Py.truthy (fst b) = true -> P b) bs ->
  Forall P (store_blocks d bs).
Proof.
  intros Hd Hbs. revert d Hd. induction Hbs as [|[k b] bs Hb Hbs IH]; intros d Hd.
  - exact Hd.
  - unfold store_blocks in *. simpl. destruct (Py.truthy k) eqn:E.
    + apply IH. apply Forall_set; [exact Hd | now apply Hb].
    + now apply IH.
Qed.

Lemma blocks_trimmed (lines : list str) :
  Forall (fun b => trimmed (fst b) = true /\ trimmed (snd b) = true) (blocks lines).
Proof.
  induction lines as [|l rest IH]; simpl; [constructor|].
  destruct (is_heading l); [|exact IH].
  constructor; [|exact IH]. simpl. unfold heading_of.
  split; apply trimmed_strip.
Qed.

(** X1: for every document text, the sections mapping the parser returns
    is well formed: no key comes twice, no key is the empty string, and
    neither a key nor a body starts or ends with whitespace. *)
Theorem parsed_sections_well_formed (content : str) :
  distinct (Dict.keys (parse_sections content)) = true
  /\ Forall (fun kv => Py.truthy (fst kv) = true
                       /\ trimmed (fst kv) = true
                       /\ trimmed (snd kv) = true)
            (parse_sections content).
Proof.
  split; [apply distinct_parse|].
  unfold parse_sections. rewrite parse_lines_blocks.
  apply Forall_store_blocks; [constructor|].
  eapply Forall_impl; [|apply blocks_trimmed].
  intros [k b] [Hk Hb] Ht. auto.
Qed.

(** *** The timestamp token *)

Lemma re_match_some (pattern : list (N -> bool)) (s m : str) :
  re_match pattern s = Some m <->
  Forall2 (fun (cls : N -> bool) c => cls c = true) pattern m
  /\ exists post, s = m ++ post.
Proof.
  revert s m. induction pattern as [|cls pattern IH]; intros s m; simpl.
  - split.
    + intros H. injection H as <-. split; [constructor | now exists s].
    + intros [H _]. now inversion H.
  - destruct s as [|c s].
    + split; [discriminate|]. intros [H [post Hs]].
      destruct m; [inversion H | discriminate].
    + split.
      * intros H. destruct (cls c) eqn:Ec; [|discriminate].
        destruct (re_match pattern s) as [m'|] eqn:Em; [|discriminate].
        injection H as <-. apply IH in Em as [Hm' [post Hs]].
        split; [now constructor|]. exists post. simpl. now f_equal.
      * intros [H [post Hs]]. destruct m as [|c' m'']; [inversion H|].
        apply Forall2_cons_iff in H as [Hc Hrest].
        simpl in Hs. injection Hs as Hc' Hs'. rewrite Hc', Hc.
        now rewrite (proj2 (IH s m'') (conj Hrest (ex_intro _ post Hs'))).
Qed.

Lemma re_search_some (pattern : list (N -> bool)) (s m : str) :
  re_search pattern s = Some m ->
  exists pre,
    occurs_at pre m s
    /\ Forall2 (fun (cls : N -> bool) c => cls c = true) pattern m
    /\ forall pre' m',
         occurs_at pre' m' s ->
         Forall2 (fun (cls : N -> bool) c => cls c = true) pattern m' ->
         (List.length pre <= List.length pre')%nat.
Proof.
  revert m. induction s as [|c s IH]; intros m; simpl.
  - destruct (re_match pattern []) as [m0|] eqn:E; [|discriminate].
    intros H. injection H as <-. apply re_match_some in E as [Hm [post Hs]].
    exists []. repeat split; [now exists post | exact Hm | simpl; lia].
  - destruct (re_match pattern (c :: s)) as [m0|] eqn:E.
    + intros H. injection H as <-. apply re_match_some in E as [Hm [post Hs]].
      exists []. repeat split; [now exists post | exact Hm | simpl; lia].
    + intros H. destruct (IH m H) as (pre & [post Hs] & Hm & Hleast).
      exists (c :: pre). repeat split.
      * exists post. simpl. now rewrite <- Hs.
      * exact Hm.
      * intros pre' m' [post' Hs'] Hm'. destruct pre' as [|c' pre'].
        -- simpl in Hs'.
           assert (re_match pattern (c :: s) = Some m') as E'
               by (apply re_match_some; split; [exact Hm' | now exists post']).
           congruence.
        -- simpl in Hs'. injection Hs' as <- Hs'. simpl.
           apply le_n_S. apply (Hleast pre' m'); [now exists post' | exact Hm'].
Qed.

Lemma re_search_none (pattern : list (N -> bool)) (s : str) :
  re_search pattern s = None ->
  forall pre m,
    occurs_at pre m s ->
    ~ Forall2 (fun (cls : N -> bool) c => cls c = true) pattern m.
Proof.
  induction s as [|c s IH]; simpl.
  - destruct (re_match pattern []) as [m0|] eqn:E; [discriminate|].
    intros _ pre m [post Hs] Hm.
    destruct pre; [|discriminate]. simpl in Hs.
    assert (re_match pattern [] = Some m) as E'
        by (apply re_match_some; split; [exact Hm | now exists post]).
    congruence.
  - destruct (re_match pattern (c :: s)) as [m0|] eqn:E; [discriminate|].
    intros H pre m [post Hs] Hm. destruct pre as [|c' pre].
    + simpl in Hs.
      assert (re_match pattern (c :: s) = Some m) as E'
          by (apply re_match_some; split; [exact Hm | now exists post]).
      congruence.
    + simpl in Hs. injection Hs as <- Hs.
      apply (IH H pre m); [now exists post | exact Hm].
Qed.

(** X2: for every handoff file, the timestamp token is the leftmost part of
    the file name that has the shape of the pattern (two digits, three
    ASCII letters, four digits, a dash, four digits), and it is the literal
    "Unknown" when no part of the name has that shape. *)
Theorem timestamp_token_leftmost (f : handoff_file) :
  (exists pre,
      occurs_at pre (timestamp_token (parse_handoff f)) (file_name f)
      /\ token_shape (timestamp_token (parse_handoff f))
      /\ List.length (timestamp_token (parse_handoff f)) = 14%nat
      /\ forall pre' tok',
           occurs_at pre' tok' (file_name f) -> token_shape tok' ->
           (List.length pre <= List.length pre')%nat)
  \/ (timestamp_token (parse_handoff f) = u "Unknown"
      /\ forall pre' tok',
           occurs_at pre' tok' (file_name f) -> ~ token_shape tok').
Proof.
  unfold parse_handoff, token_shape. cbn [timestamp_token].
  destruct (re_search timestamp_pattern (file_name f)) as [m|] eqn:E.
  - left. destruct (re_search_some _ _ E) as (pre & Hocc & Hm & Hleast).
    exists pre. repeat split; try assumption.
    apply Forall2_length in Hm. now rewrite <- Hm.
  - right. split; [reflexivity|]. now apply re_search_none.
Qed.

(** *** The corpus listing *)

Lemma insert_desc_perm (A : Type) (key : A -> Z) (x : A) (l : list A) :
  Permutation (x :: l) (insert_desc key x l).
Proof.
  induction l as [|y l IH]; simpl; [apply Permutation_refl|].
  destruct (key y <? key x); [apply Permutation_refl|].
  etransitivity; [apply perm_swap|]. now apply perm_skip.
Qed.

Lemma sorted_desc_perm (A : Type) (key : A -> Z) (l : list A) :
  Permutation l (sorted_desc key l).
Proof.
  induction l as [|x l IH] using rev_ind; [apply Permutation_refl|].
  rewrite sorted_desc_snoc.
  etransitivity; [|apply insert_desc_perm].
  etransitivity; [apply Permutation_sym, Permutation_cons_append|].
  now apply perm_skip.
Qed.

(** X3: for every directory listing, [list_handoffs] returns the files
    found, each once, ordered from the most recently modified to the least;
    it returns no file when the directory does not exist. *)
Theorem list_handoffs_newest_first (found : list handoff_file) :
  Permutation found (list_handoffs (Some found))
  /\ StronglySorted (fun a b => file_mtime b <= file_mtime a)
                    (list_handoffs (Some found))
  /\ list_handoffs None = [].
Proof.
  split; [apply sorted_desc_perm|]. split; [|reflexivity].
  apply sorted_desc_sorted.
Qed.

(** *** Issues of the snapshot *)





(** *** Confidence data of the snapshot *)

Lemma set_not_nil (V : Type) (d : dict V) (k : str) (v : V) : Dict.set d k v <> [].
Proof. destruct d as [|[k' v'] d]; simpl; [|destruct (Py.str_eqb k' k)]; discriminate. Qed.

Lemma track_nil (confs : dict level) (t : dict trend) :
  fold_left track_confidence confs t = [] <->
  t = [] /\ Forall (fun kl => snd kl = Unknown) confs.
Proof.
  revert t. induction confs as [|[k l] confs IH]; intros t.
  - simpl. split; [intros ->; split; [reflexivity | constructor] | tauto].
  - cbn [fold_left]. rewrite IH. unfold track_confidence. split.
    + intros [Ht Hc]. destruct l; try (now apply set_not_nil in Ht).
      split; [exact Ht | now constructor].
    + intros [-> Hc]. apply Forall_cons_iff in Hc as [Hl Hc]. simpl in Hl.
      subst l. split; [reflexivity | exact Hc].
Qed.

Lemma fold_trends_nil (hs : list handoff_file) (t : dict trend) :
  fold_trends hs t = [] <-> t = [] /\ Forall unmarked hs.
Proof.
  unfold fold_trends. revert t. induction hs as [|f hs IH]; intros t.
  - simpl. split; [intros ->; split; [reflexivity | constructor] | tauto].
  - cbn [fold_left]. rewrite IH, track_nil, Forall_cons_iff.
    rewrite extract_confidence_levels_map by apply distinct_parse.
    unfold unmarked. rewrite Forall_map. cbn [snd]. tauto.
Qed.

Lemma get_Forall (V : Type) (Q : V -> Prop) (d : dict V) (k : str) (v : V) :
  Forall (fun kv => Q (snd kv)) d -> Dict.get d k = Some v -> Q v.
Proof.
  intros Hd. induction Hd as [|[k' v'] d Hx Hd IH]; simpl; [discriminate|].
  destruct (Py.str_eqb k' k); [|exact IH]. intros H. now injection H as <-.
Qed.

Lemma track_counted (t : dict trend) (item : str * level) :
  Forall (fun kt => counted (snd kt)) t ->
  Forall (fun kt => counted (snd kt)) (track_confidence t item).
Proof.
  intros Ht. destruct item as [k l]. unfold track_confidence.
  assert (Hcur : Dict.get_default t k zero_trend = zero_trend
                 \/ counted (Dict.get_default t k zero_trend)).
  { unfold Dict.get_default. destruct (Dict.get t k) as [v|] eqn:E; [right|now left].
    exact (get_Forall (fun v => counted v) _ Ht E). }
  destruct l; try exact Ht; apply Forall_set; try exact Ht;
    unfold counted, trend_total in *; cbn [snd bump_level high medium low];
    destruct Hcur as [->|Hc]; simpl; lia.
Qed.

Lemma fold_trends_counted (hs : list handoff_file) (t : dict trend) :
  Forall (fun kt => counted (snd kt)) t ->
  Forall (fun kt => counted (snd kt)) (fold_trends hs t).
Proof.
  unfold fold_trends. revert t. induction hs as [|f hs IH]; intros t Ht; [exact Ht|].
  cbn [fold_left]. apply IH.
  generalize (extract_confidence_levels (sections (parse_handoff f))).
  intros confs. revert t Ht. induction confs as [|c confs IHc]; intros t Ht;
    [exact Ht|].
  cbn [fold_left]. apply IHc. now apply track_counted.
Qed.

(** X5: for every corpus, the snapshot has no confidence data exactly when
    no section of any document carries a confidence marker; and every
    trend it holds is sound: no count is negative and the three counts add
    up to at least one, so that every section kept has something to
    show. *)
Theorem confidence_data_sound (hs : list handoff_file) :
  (confidence_trends (analyze_handoffs hs) = [] <-> Forall unmarked hs)
  /\ Forall (fun kt => counted (snd kt)) (confidence_trends (analyze_handoffs hs)).
Proof.
  rewrite analyze_fields. cbn [confidence_trends]. split.
  - rewrite fold_trends_nil. unfold Dict.empty. tauto.
  - apply fold_trends_counted. constructor.
Qed.

(** *** The timeline *)

Lemma enumerate_combine (A : Type) (xs : list A) (n : nat) :
  enumerate (Z.of_nat n) xs
  = combine (map Z.of_nat (seq n (List.length xs))) xs.
Proof.
  revert n. induction xs as [|x xs IH]; intros n; simpl; [reflexivity|].
  f_equal. replace (Z.of_nat n + 1) with (Z.of_nat (S n)) by lia. apply IH.
Qed.

Lemma filter_map_all (A B : Type) (p : B -> bool) (g : A -> B) (xs : list A) :
  (forall x, p (g x) = true) -> filter p (map g xs) = map g xs.
Proof.
  intros H. induction xs as [|x xs IH]; simpl; [reflexivity|].
  now rewrite H, IH.
Qed.

Lemma split_no_sep (sep : N) (s : str) :
  Forall (fun l => ~ In sep l) (Py.split sep s).
Proof.
  induction s as [|c s IH]; simpl.
  - constructor; [tauto | constructor].
  - destruct (N.eqb c sep) eqn:E.
    + constructor; [tauto | exact IH].
    + apply N.eqb_neq in E.
      destruct (Py.split sep s) as [|l ls].
      * constructor; [|constructor]. intros [H|[]]. congruence.
      * apply Forall_cons_iff in IH as [Hl Hls].
        constructor; [|exact Hls]. intros [H|H]; [congruence | tauto].
Qed.

Lemma in_firstn (A : Type) (n : nat) (x : A) (l : list A) :
  In x (firstn n l) -> In x l.
Proof.
  intros H. rewrite <- (firstn_skipn n l). apply in_or_app. now left.
Qed.

(** X6: for every document of a snapshot, the description shown beside it
    is a single line: it holds no newline, and it is no longer than the
    limit asked for, or than the 14 characters of the placeholder that
    stands for a missing or empty "Project Identity" section. *)
Theorem description_is_one_short_line (n : nat) (p : parsed) :
  (List.length (describe n p) <= Nat.max n 14)%nat
  /\ ~ In NL (describe n p).
Proof.
  unfold describe.
  destruct (Dict.get_default (sections p) (u "Project Identity") []) as [|c body];
    cbn [Py.truthy].
  - split; [simpl; lia|]. vm_compute. intuition discriminate.
  - split.
    + pose proof (length_firstn n (hd [] (Py.split NL (c :: body)))). lia.
    + intros H. apply in_firstn in H.
      pose proof (split_no_sep NL (c :: body)) as Hs.
      destruct (Py.split NL (c :: body)) as [|l ls]; [exact H|].
      apply Forall_cons_iff in Hs as [Hl _]. now apply Hl.
Qed.

(** X7: for every snapshot, the timeline prints one entry for each of the
    first twenty documents at most, in the order of the snapshot and
    numbered from 1; it raises nothing and writes no file; and it prints
    the count of the documents left out exactly when there are more than
    twenty. *)
Theorem timeline_shows_first_twenty (d : data) (w : world) :
  exists lines,
    print_timeline d w =
      (inr (match handoffs d with [] => 1 | _ :: _ => 0 end),
       {| stdout := stdout w ++ lines; files := files w |})
    /\ filter is_entry lines
       = map (fun ip => TimelineEntry (fst ip) (modified (snd ip))
                                      (describe 50 (snd ip)))
             (combine (map Z.of_nat (seq 1 (Nat.min 20 (List.length (handoffs d)))))
                      (firstn 20 (handoffs d)))
    /\ forall n, In (TimelineMore n) lines
                 <-> 20 < Py.len (handoffs d) /\ n = Py.len (handoffs d) - 20.
Proof.
  unfold print_timeline. destruct (handoffs d) as [|p ps] eqn:Hh.
  - exists [Text "No handoffs to display."]. split; [reflexivity|].
    split; [reflexivity|]. intros n. unfold Py.len. simpl. split.
    + intros [H|[]]. discriminate.
    + lia.
  - set (hs := p :: ps) in *.
    set (entries := map (fun ip => TimelineEntry (fst ip) (modified (snd ip))
                                                 (describe 50 (snd ip)))
                        (enumerate 1 (firstn 20 hs))).
    set (more := if Py.len hs >? 20 then [TimelineMore (Py.len hs - 20)] else []).
    exists ([Banner "Project Timeline"] ++ entries ++ more).
    split; [|split].
    + rewrite bind_print, bind_for_each_print. fold entries.
      unfold more. destruct (Py.len hs >? 20).
      * rewrite bind_print. unfold ret. cbn [stdout files]. now rewrite <- !app_assoc.
      * rewrite bind_ret. unfold ret. cbn [stdout files].
        now rewrite app_nil_r, <- !app_assoc.
    + cbn [app filter is_entry]. rewrite filter_app.
      assert (filter is_entry more = []) as ->
          by (unfold more; now destruct (Py.len hs >? 20)).
      rewrite app_nil_r. unfold entries.
      rewrite filter_map_all by reflexivity.
      change 1 with (Z.of_nat 1). rewrite enumerate_combine.
      now rewrite length_firstn.
    + intros n. cbn [app]. split.
      * intros [H|H]; [discriminate|]. apply in_app_or in H as [H|H].
        -- unfold entries in H. apply in_map_iff in H as (x & Hx & _). discriminate.
        -- unfold more in H. destruct (Py.len hs >? 20) eqn:E; [|contradiction].
           destruct H as [H|[]]. injection H as <-. split; [lia | reflexivity].
      * intros [Hgt ->]. right. apply in_or_app. right. unfold more.
        assert ((Py.len hs >? 20) = true) as -> by lia. now left.
Qed.

(** *** Grouping the issues by type *)

Lemma type_name_eqb (a b : issue_type) :
  Py.str_eqb (type_name a) (type_name b) = issue_type_eqb a b.
Proof. now destruct a, b. Qed.

Lemma issue_type_eqb_eq (a b : issue_type) : issue_type_eqb a b = true <-> a = b.
Proof. destruct a, b; simpl; split; congruence. Qed.

Lemma group_issue_get (found : list issue) (t : issue_type) :
  Dict.get (fold_left group_issue found (Dict.empty (list issue))) (type_name t)
  = match filter (fun i => issue_type_eqb (type i) t) found with
    | [] => None
    | g => Some g
    end.
Proof.
  induction found as [|i found IH] using rev_ind; [reflexivity|].
  rewrite fold_left_app, filter_app. cbn [fold_left filter].
  unfold group_issue at 1.
  destruct (issue_type_eqb (type i) t) eqn:E.
  - apply issue_type_eqb_eq in E. rewrite E.
    rewrite get_set_same. unfold Dict.get_default. rewrite IH.
    destruct (filter (fun i0 => issue_type_eqb (type i0) t) found); reflexivity.
  - rewrite get_set_other.
    + rewrite IH, app_nil_r. reflexivity.
    + intros Heq. apply str_eqb_eq in Heq. rewrite type_name_eqb in Heq.
      apply issue_type_eqb_eq in Heq.
      assert (issue_type_eqb (type i) t = true) by now apply issue_type_eqb_eq.
      congruence.
Qed.

Lemma group_issue_distinct (found : list issue) :
  distinct (Dict.keys (fold_left group_issue found (Dict.empty (list issue)))) = true.
Proof.
  induction found as [|i found IH] using rev_ind; [reflexivity|].
  rewrite fold_left_app. cbn [fold_left]. unfold group_issue at 1.
  now apply distinct_set.
Qed.

(** X8: for every list of issues, the grouping the issue listing works on
    loses and repeats nothing: the group of a type holds exactly the issues
    of that type, in their order; a type with no issue has no group; and no
    type has two groups. *)
Theorem grouping_keeps_every_issue (found : list issue) (t : issue_type) :
  Dict.get (fold_left group_issue found (Dict.empty (list issue))) (type_name t)
    = match filter (fun i => issue_type_eqb (type i) t) found with
      | [] => None
      | g => Some g
      end
  /\ distinct (Dict.keys (fold_left group_issue found (Dict.empty (list issue))))
     = true.
Proof. split; [apply group_issue_get | apply group_issue_distinct]. Qed.

(** *** The corpus locator *)

Lemma find_ancestors (P : path -> bool) (p : path) (k : nat) :
  match find P (map (ancestor p) (rev (seq 0 k))) with
  | Some q =>
      exists n, (n < k)%nat /\ q = ancestor p n /\ P q = true
                /\ forall m, (n < m < k)%nat -> P (ancestor p m) = false
  | None => forall m, (m < k)%nat -> P (ancestor p m) = false
  end.
Proof.
  induction k as [|k IH].
  - simpl. intros m Hm. lia.
  - rewrite seq_S, rev_app_distr. cbn [rev app map find Nat.add].
    destruct (P (ancestor p k)) eqn:Ek.
    + exists k. repeat split; [lia | exact Ek | intros m Hm; lia].
    + destruct (find P (map (ancestor p) (rev (seq 0 k)))) as [q|].
      * destruct IH as (n & Hn & Hq & HP & Hfar).
        exists n. repeat split; [lia | exact Hq | exact HP|].
        intros m Hm. destruct (Nat.eq_dec m k) as [->|Hne]; [exact Ek|].
        apply Hfar. lia.
      * intros m Hm. destruct (Nat.eq_dec m k) as [->|Hne]; [exact Ek|].
        apply IH. lia.
Qed.

Lemma ancestor_self (p : path) : ancestor p (List.length (parts p)) = p.
Proof. destruct p as [a ps]. unfold ancestor. simpl. now rewrite firstn_all. Qed.

(** X11: for every file system and every starting directory, the directory
    found is docs/handoffs under the nearest of the starting directory and
    its ancestors that has one: it exists, and no nearer candidate does;
    when none of them has one, the relative default docs/handoffs is
    returned, whether it exists or not. *)
Theorem nearest_handoff_directory
        (exists_ : path -> bool) (cwd start : path) :
  let candidate n := joinpath (ancestor start n) (parts DEFAULT_HANDOFF_DIR) in
  let found := find_handoff_directory exists_ cwd (Some start) in
  (exists n, (n <= List.length (parts start))%nat
             /\ found = candidate n
             /\ exists_ found = true
             /\ forall m, (n < m <= List.length (parts start))%nat ->
                          exists_ (candidate m) = false)
  \/ (found = DEFAULT_HANDOFF_DIR
      /\ forall m, (m <= List.length (parts start))%nat ->
                   exists_ (candidate m) = false).
Proof.
  intros candidate found. unfold found, find_handoff_directory.
  set (P := fun parent => exists_ (joinpath parent (parts DEFAULT_HANDOFF_DIR))).
  assert (Hself : joinpath start (parts DEFAULT_HANDOFF_DIR)
                  = candidate (List.length (parts start)))
    by (unfold candidate; now rewrite ancestor_self).
  destruct (exists_ (joinpath start (parts DEFAULT_HANDOFF_DIR))) eqn:E0.
  - left. exists (List.length (parts start)).
    repeat split; [lia | exact Hself | exact E0 | intros m Hm; lia].
  - assert (HP0 : P start = false) by exact E0.
    cbn [find]. rewrite HP0. unfold parents.
    pose proof (find_ancestors P start (List.length (parts start))) as H.
    destruct (find P (map (ancestor start) (rev (seq 0 (List.length (parts start))))))
      as [q|].
    + left. destruct H as (n & Hn & -> & HP & Hfar). exists n.
      repeat split; [lia | exact HP|].
      intros m Hm.
      destruct (Nat.eq_dec m (List.length (parts start))) as [->|Hne].
      * now rewrite <- Hself.
      * apply (Hfar m). lia.
    + right. split; [reflexivity|]. intros m Hm.
      destruct (Nat.eq_dec m (List.length (parts start))) as [->|Hne].
      * now rewrite <- Hself.
      * apply (H m). lia.
Qed.

(** *** The directory listing *)

Lemma glob_match_spec (name : str) :
  glob_match name = true <->
  exists middle, name = GLOB_PREFIX ++ middle ++ GLOB_SUFFIX.
Proof.
  unfold glob_match, endswith.
  rewrite !andb_true_iff, Nat.leb_le, !startswith_spec. split.
  - intros [[[rest Hp] [post Hs]] Hlen].
    apply (f_equal (@rev N)) in Hs. rewrite rev_involutive, rev_app_distr in Hs.
    rewrite rev_involutive in Hs.
    assert (Heq : GLOB_PREFIX ++ rest = rev post ++ GLOB_SUFFIX) by congruence.
    apply app_eq_app in Heq as [l [[H1 H2]|[H1 H2]]].
    + assert (l = []) as ->.
      { apply length_zero_iff_nil.
        apply (f_equal (@List.length N)) in H1, Hs.
        rewrite length_app in H1, Hs. lia. }
      exists []. rewrite Hp. simpl in H2. now rewrite <- H2.
    + exists l. now rewrite Hp, H2.
  - intros [middle ->]. repeat split.
    + now exists (middle ++ GLOB_SUFFIX).
    + exists (rev (GLOB_PREFIX ++ middle)).
      now rewrite app_assoc, rev_app_distr.
    + rewrite !length_app. lia.
Qed.

(** *** The most frequent sections *)

Lemma sorted_top (A : Type) (key : A -> Z) (k : nat) (l : list A) :
  StronglySorted (above key) l ->
  Forall (fun y => Forall (fun x => key y <= key x) (firstn k l)) (skipn k l).
Proof.
  revert l. induction k as [|k IH]; intros l Hs.
  - simpl. apply Forall_forall. intros y _. constructor.
  - destruct l as [|x l]; [constructor|].
    apply StronglySorted_inv in Hs as [Hs Hx]. cbn [firstn skipn].
    specialize (IH l Hs). rewrite Forall_forall in IH, Hx.
    apply Forall_forall. intros y Hy. constructor.
    + apply Hx. rewrite <- (firstn_skipn k l). apply in_or_app. now right.
    + now apply IH.
Qed.

Lemma sorted_firstn (A : Type) (R : A -> A -> Prop) (k : nat) (l : list A) :
  StronglySorted R l -> StronglySorted R (firstn k l).
Proof.
  revert l. induction k as [|k IH]; intros l Hs; [constructor|].
  destruct l as [|x l]; [constructor|].
  apply StronglySorted_inv in Hs as [Hs Hx]. cbn [firstn].
  constructor; [now apply IH|].
  rewrite Forall_forall in *. intros y Hy. apply Hx.
  rewrite <- (firstn_skipn k l). apply in_or_app. now left.
Qed.

Lemma filter_map_none (A B : Type) (p : B -> bool) (g : A -> B) (xs : list A) :
  (forall x, p (g x) = false) -> filter p (map g xs) = [].
Proof.
  intros H. induction xs as [|x xs IH]; simpl; [reflexivity|].
  now rewrite H, IH.
Qed.

(** X13: for every snapshot, the section bars of the summary are those of
    the ten most frequent sections at most, from the most frequent to the
    least: the sections shown and the sections left out are together the
    sections of the counter, each once, and no section left out is more
    frequent than a section shown. *)
Theorem summary_shows_most_frequent (d : data) (w : world) :
  let shown := most_common_n 10 (sections_frequency d) in
  let hidden := skipn 10 (most_common (sections_frequency d)) in
  (exists lines,
      print_summary d w =
        (inr 0, {| stdout := stdout w ++ lines; files := files w |})
      /\ filter is_bar lines
         = map (fun item => SectionBar (firstn 30 (fst item))
                                       (snd item * 2) (snd item)) shown)
  /\ (List.length shown <= 10)%nat
  /\ Permutation (sections_frequency d) (shown ++ hidden)
  /\ StronglySorted (fun a b => snd b <= snd a) shown
  /\ Forall (fun y => Forall (fun x => snd y <= snd x) shown) hidden.
Proof.
  intros shown hidden. split; [|split; [|split; [|split]]].
  - exists (summary_lines d). split; [apply print_summary_lines|].
    unfold summary_lines. rewrite !filter_app.
    rewrite (filter_map_all is_bar) by reflexivity.
    rewrite (filter_map_none is_bar) by reflexivity.
    destruct (time_span d), (rate_of d); cbn [filter is_bar app];
      now rewrite app_nil_r.
  - unfold shown, most_common_n. rewrite length_firstn. lia.
  - unfold shown, hidden, most_common_n, most_common.
    rewrite firstn_skipn. apply sorted_desc_perm.
  - unfold shown, most_common_n. apply sorted_firstn.
    apply (sorted_desc_sorted (@snd str Z)).
  - unfold shown, hidden, most_common_n, most_common.
    apply (@sorted_top (str * Z) (@snd str Z)). apply sorted_desc_sorted.
Qed.

(** *** Descriptions of the issues *)

(** X14: for every sections mapping, every issue extracted has a trimmed
    description: it neither starts nor ends with whitespace. *)
Theorem issue_descriptions_trimmed (secs : dict str) :
  Forall (fun i => trimmed (raw_description i) = true) (extract_issues secs).
Proof.
  rewrite extract_issues_scans. apply Forall_app. split.
  - unfold risks_of. apply Forall_forall. intros i Hi.
    apply in_map_iff in Hi as (l & <- & _). apply trimmed_strip.
  - unfold bugs_of. apply Forall_forall. intros i Hi.
    apply in_map_iff in Hi as (l & <- & _). apply trimmed_strip.
Qed.

(** *** The confidence listing *)

Lemma for_each_lines (A : Type) (g : A -> list out) (body : A -> io unit)
      (xs : list A) (w : world) :
  (forall x, In x xs -> forall w',
      body x w' = (inr tt, {| stdout := stdout w' ++ g x; files := files w' |})) ->
  for_each xs body w =
  (inr tt, {| stdout := stdout w ++ flat_map g xs; files := files w |}).
Proof.
  revert w. induction xs as [|x xs IH]; intros w Hbody; simpl.
  - destruct w; unfold ret; simpl. now rewrite app_nil_r.
  - unfold bind. rewrite (Hbody x (or_introl eq_refl)).
    rewrite IH by (intros y Hy; apply Hbody; now right).
    simpl. now rewrite <- app_assoc.
Qed.

(** X15: for every corpus, the confidence listing of its snapshot raises
    nothing and prints one block for every section that has confidence
    data, none skipped, in the order of the snapshot, with the three
    counts and their shares of the section's total. *)
Theorem confidence_lists_every_section (hs : list handoff_file) (w : world) :
  exists lines,
    print_confidence (analyze_handoffs hs) w =
      (inr (match confidence_trends (analyze_handoffs hs) with
            | [] => 1
            | _ :: _ => 0
            end),
       {| stdout := stdout w ++ lines; files := files w |})
    /\ filter is_block lines
       = map (fun kt => ConfidenceBlock (fst kt) (snd kt)
                                        (percent (high (snd kt)) (snd kt))
                                        (percent (medium (snd kt)) (snd kt))
                                        (percent (low (snd kt)) (snd kt)))
             (confidence_trends (analyze_handoffs hs)).
Proof.
  assert (Hc : Forall (fun kt => counted (snd kt))
                      (confidence_trends (analyze_handoffs hs))).
  { rewrite analyze_fields. cbn [confidence_trends].
    apply fold_trends_counted. constructor. }
  unfold print_confidence.
  destruct (confidence_trends (analyze_handoffs hs)) as [|kt rest] eqn:E.
  - exists [Text "No confidence data found."]. split; reflexivity.
  - set (trends := kt :: rest) in *.
    set (block := fun kt : str * trend =>
                    ConfidenceBlock (fst kt) (snd kt)
                                    (percent (high (snd kt)) (snd kt))
                                    (percent (medium (snd kt)) (snd kt))
                                    (percent (low (snd kt)) (snd kt))).
    exists ([Banner "Confidence Trends by Section"]
            ++ flat_map (fun kt => [block kt]) trends).
    split.
    + rewrite bind_print. unfold bind at 1.
      rewrite (for_each_lines (fun kt => [block kt])).
      * unfold ret. cbn [stdout files]. now rewrite <- app_assoc.
      * intros item Hitem w'. rewrite Forall_forall in Hc.
        destruct (Hc item Hitem) as (_ & _ & _ & Htot). unfold trend_total in Htot.
        assert ((high (snd item) + medium (snd item) + low (snd item) =? 0) = false)
          as -> by lia.
        unfold truediv.
        assert ((high (snd item) + medium (snd item) + low (snd item) =? 0) = false)
          as -> by lia.
        reflexivity.
    + cbn [app filter is_block]. clearbody trends. clear.
      induction trends as [|x xs IHx]; [reflexivity|].
      cbn [flat_map map app filter]. unfold block at 1. cbn [is_block].
      f_equal. exact IHx.
Qed.

(** *** The issue listing *)

Lemma filter_flat_map (A B : Type) (p : B -> bool) (g : A -> list B) (xs : list A) :
  filter p (flat_map g xs) = flat_map (fun x => filter p (g x)) xs.
Proof.
  induction xs as [|x xs IH]; simpl; [reflexivity|].
  now rewrite filter_app, IH.
Qed.

(** X16: for every snapshot, the issue listing raises nothing and shows,
    group after group, the ten most recent issues of the group at most,
    from the most recent to the least, each with its description cut to 70
    characters: in every group no issue left out is more recent than an
    issue shown. *)
Theorem issue_listing_shows_most_recent (d : data) (w : world) :
  (exists lines,
      print_issues d w =
        (inr 0, {| stdout := stdout w ++ lines; files := files w |})
      /\ filter is_issue_line lines
         = flat_map
             (fun item =>
                map (fun i => IssueLine (timestamp i) (firstn 70 (description i)))
                    (firstn 10 (sorted_desc timestamp (snd item))))
             (issue_groups d))
  /\ Forall (fun item =>
               Permutation (snd item) (sorted_desc timestamp (snd item))
               /\ StronglySorted (fun a b => timestamp b <= timestamp a)
                                 (firstn 10 (sorted_desc timestamp (snd item)))
               /\ Forall (fun y => Forall (fun x => timestamp y <= timestamp x)
                                          (firstn 10 (sorted_desc timestamp (snd item))))
                         (skipn 10 (sorted_desc timestamp (snd item))))
            (issue_groups d).
Proof.
  split.
  - unfold print_issues. fold (issue_groups d).
    destruct (issues d) as [|i rest] eqn:Hi.
    + exists [Text "No issues found."]. split; [reflexivity|].
      unfold issue_groups. now rewrite Hi.
    + set (shown := fun item : str * list issue =>
                      map (fun i => IssueLine (timestamp i) (firstn 70 (description i)))
                          (firstn 10 (sorted_desc timestamp (snd item)))).
      set (g := fun item : str * list issue =>
                  [IssueGroup (fst item) (Py.len (snd item))]
                  ++ shown item
                  ++ (if Py.len (sorted_desc timestamp (snd item)) >? 10
                      then [IssueMore (Py.len (sorted_desc timestamp (snd item)) - 10)]
                      else [])).
      exists ([IssuesBanner (Py.len (i :: rest))] ++ flat_map g (issue_groups d)).
      split.
      * rewrite bind_print. unfold bind at 1.
        rewrite (for_each_lines g).
        -- unfold ret. cbn [stdout files]. now rewrite <- app_assoc.
        -- intros item _ w'. rewrite bind_print, bind_for_each_print.
           unfold g, shown.
           destruct (Py.len (sorted_desc timestamp (snd item)) >? 10).
           ++ unfold print. cbn [stdout files]. now rewrite <- !app_assoc.
           ++ unfold ret. cbn [stdout files].
              now rewrite app_nil_r, <- !app_assoc.
      * cbn [app filter is_issue_line]. rewrite filter_flat_map.
        apply flat_map_ext. intros item. unfold g.
        cbn [app filter is_issue_line]. rewrite filter_app.
        unfold shown. rewrite filter_map_all by reflexivity.
        destruct (Py.len (sorted_desc timestamp (snd item)) >? 10);
          cbn [filter is_issue_line]; now rewrite app_nil_r.
  - apply Forall_forall. intros item _. split; [apply sorted_desc_perm|]. split.
    + apply sorted_firstn. apply (sorted_desc_sorted timestamp).
    + apply (@sorted_top issue timestamp). apply sorted_desc_sorted.
Qed.
(** *** The export keeps the snapshot *)







(** *** What [main] does in every run *)






(** *** The files the listing keeps *)

(** X12: for every file system, when the handoff directory exists the
    handoffs listed are, each once, the files of exactly those entries of
    the directory that are regular files and whose name is
    "AI_Continuation_Document-", anything, ".md": no such entry is left
    out and no other is listed; when the directory does not exist the list
    is empty. *)
Theorem listing_matches_the_pattern
        (fs : filesystem) (cwd : path) (handoff_dir : option path) :
  let dir := match handoff_dir with
             | Some p => p
             | None => find_handoff_directory (fs_exists fs) cwd None
             end in
  if fs_exists fs dir
  then exists keep : dir_entry -> bool,
         (forall e, keep e = true <->
                    entry_is_file e = true
                    /\ exists middle,
                         file_name (entry_file e)
                         = GLOB_PREFIX ++ middle ++ GLOB_SUFFIX)
         /\ Permutation (map entry_file (filter keep (fs_entries fs dir)))
                        (list_handoffs_on fs cwd handoff_dir)
  else list_handoffs_on fs cwd handoff_dir = [].
Proof.
  intros dir. unfold list_handoffs_on, glob_handoffs. fold dir.
  destruct (fs_exists fs dir); [|reflexivity].
  exists (fun e => glob_match (file_name (entry_file e)) && entry_is_file e).
  split.
  - intros e. rewrite andb_true_iff, glob_match_spec. tauto.
  - apply sorted_desc_perm.
Qed.

(** *** Ties among the most frequent sections *)

Lemma summary_bars (d : data) :
  filter is_bar (summary_lines d)
  = map (fun item => SectionBar (firstn 30 (fst item)) (snd item * 2) (snd item))
        (most_common_n 10 (sections_frequency d)).
Proof.
  unfold summary_lines. rewrite !filter_app.
  rewrite (filter_map_all is_bar) by reflexivity.
  rewrite (filter_map_none is_bar) by reflexivity.
  destruct (time_span d), (rate_of d); cbn [filter is_bar app];
    now rewrite app_nil_r.
Qed.

(** C10: for every document text, the keys of the sections mapping are
    the stored headings in the order of their first occurrence in the
    document: a heading that comes again overwrites the body and leaves
    the key where it first went. Downstream, the keys of the section
    frequency counter are the section keys of the corpus in first-seen
    order; the ranking by frequency keeps sections of equal frequency in
    that order; and the ten sections at most that the summary shows are
    the most frequent ones, ties going to the sections seen first: among
    the sections of any one frequency, those shown are the first of the
    counter, in the counter's order. *)
Theorem section_keys_first_seen
        (content : str) (hs : list handoff_file) (c : dict Z) (n : Z)
        (d : data) (w : world) :
  Dict.keys (parse_sections content)
    = first_seen (filter Py.truthy (map fst (blocks (Py.split NL content))))
  /\ Dict.keys (sections_frequency (analyze_handoffs hs))
     = first_seen (List.concat (map (fun f => Dict.keys (sections (parse_handoff f)))
                               hs))
  /\ filter (fun kv => snd kv =? n) (most_common c)
     = filter (fun kv => snd kv =? n) c
  /\ List.length (most_common_n 10 c) = Nat.min 10 (List.length c)
  /\ StronglySorted (fun a b => snd b <= snd a) (most_common_n 10 c)
  /\ Forall (fun y => In y (most_common_n 10 c)
                      \/ Forall (fun x => snd y <= snd x) (most_common_n 10 c)) c
  /\ (exists later,
         filter (fun kv => snd kv =? n) c
         = filter (fun kv => snd kv =? n) (most_common_n 10 c) ++ later)
  /\ (exists lines,
         print_summary d w =
           (inr 0, {| stdout := stdout w ++ lines; files := files w |})
         /\ filter is_bar lines
            = map (fun item => SectionBar (firstn 30 (fst item))
                                          (snd item * 2) (snd item))
                  (most_common_n 10 (sections_frequency d))).
Proof.
  split; [apply keys_parse_sections|].
  split; [rewrite analyze_fields; cbn [sections_frequency];
          apply keys_fold_frequency|].
  split; [apply sorted_desc_stable|].
  unfold most_common_n, most_common.
  pose proof (sorted_desc_perm (@snd str Z) c) as Hperm.
  pose proof (sorted_desc_sorted (@snd str Z) c) as Hsorted.
  split; [rewrite length_firstn, <- (Permutation_length Hperm); reflexivity|].
  split; [now apply sorted_firstn|].
  split.
  - pose proof (@sorted_top (str * Z) (@snd str Z) 10 _ Hsorted) as Htop.
    rewrite Forall_forall in Htop. apply Forall_forall. intros y Hy.
    apply (Permutation_in _ Hperm) in Hy.
    rewrite <- (firstn_skipn 10 (sorted_desc snd c)) in Hy.
    apply in_app_or in Hy as [Hy|Hy]; [now left | right; now apply Htop].
  - split.
    + exists (filter (fun kv => snd kv =? n) (skipn 10 (sorted_desc snd c))).
      rewrite <- filter_app, firstn_skipn. symmetry. apply sorted_desc_stable.
    + exists (summary_lines d). split; [apply print_summary_lines | apply summary_bars].
Qed.

End Program.

(** ** The properties at concrete inputs

    On ASCII text [str.lower] is [Py.ascii_lower] and [\d] is
    [Py.ascii_digit]; modification times are taken as they are. *)

Lemma confidence_priority_witness :
  exists lbl,
    Dict.get (extract_confidence_levels Py.ascii_lower mixed_sections) (u "Status")
      = Some lbl
    /\ lbl = High.
Proof.
  destruct (@confidence_priority Py.ascii_lower mixed_sections (u "Status")
              mixed_body eq_refl eq_refl)
    as (lbl & Hget & _ & _ & _ & _ & Hboth).
  exists lbl. split; [exact Hget|]. apply Hboth.
  - left. exists [], (u " shipped, but low confidence on timing"). reflexivity.
  - right. exists (CHECK_MARK ++ u " shipped, but "), (u " on timing").
    reflexivity.
Defined.

Lemma last_heading_wins_witness :
  Dict.get (parse_sections repeated_doc) (u "Plan") = Some (u "second")
  /\ parse_lines ([u "intro"] ++ [u "## Plan"; u "body"])
     = parse_lines [u "## Plan"; u "body"].
Proof.
  exact (@last_heading_wins repeated_doc (u "Plan") [u "intro"]
           [u "## Plan"; u "body"] eq_refl eq_refl).
Defined.

(** Last-write-wins, as the specification states it for every heading,
    fails for the empty heading: the last block headed by it has the body
    "y", and the mapping has no entry for it. *)
Lemma empty_heading_not_stored :
  last_body (blocks (Py.split NL nameless_doc)) [] = Some (u "y")
  /\ Dict.get (parse_sections nameless_doc) [] = None.
Proof. split; reflexivity. Qed.

Lemma time_span_extremes_witness :
  exists sp,
    time_span (analyze_handoffs Py.ascii_lower Py.ascii_digit (fun t => t)
                                same_day_corpus) = Some sp
    /\ span_start sp = 32400000000
    /\ span_end sp = 68400000000
    /\ duration_days sp = 0.
Proof.
  eexists. split; [reflexivity|].
  destruct (proj2 (@time_span_extremes Py.ascii_lower Py.ascii_digit (fun t => t)
                     same_day_corpus) _ eq_refl)
    as (_ & _ & _ & _ & _ & _ & Hday).
  split; [reflexivity|]. split; [reflexivity|].
  apply Hday. intros t t' [<-|[<-|[]]] [<-|[<-|[]]]; reflexivity.
Defined.

(** C4: the issues command ends with status 0, not 1, when it has nothing
    to show. At a handoff directory with one readable document that
    records no risk and no bug, documents are found and no issue is
    extracted: the command prints "No issues found." and the process ends
    with status 0. On the same directory the confidence command has
    nothing to show either; it prints "No confidence data found." and ends
    with status 1. *)
Theorem issues_command_exits_zero :
  issues (analyze_handoffs Py.ascii_lower Py.ascii_digit (fun t => t) [quiet_file])
    = []
  /\ main Py.ascii_lower Py.ascii_digit (fun t => t) no_faults
          {| export := None; cmd := Some cmd_issues |}
          (Some [quiet_file]) empty_world
     = (inr 0, {| stdout := [Text "No issues found."]; files := [] |})
  /\ main Py.ascii_lower Py.ascii_digit (fun t => t) no_faults
          {| export := None; cmd := Some cmd_confidence |}
          (Some [quiet_file]) empty_world
     = (inr 1, {| stdout := [Text "No confidence data found."]; files := [] |}).
Proof. split; [|split]; vm_compute; reflexivity. Qed.


(** ** The model on the scenarios of the specification *)

Example parse_repeated_doc :
  parse_sections repeated_doc
  = [(u "Plan", u "second"); (u "Risks", u "- none")].
Proof. reflexivity. Qed.

Example strip_keeps_inner_blanks :
  Py.strip (u "  - two  words ") = u "- two  words".
Proof. reflexivity. Qed.

Example two_risks_in_order :
  extract_issues Py.ascii_lower
    [(u "What Could Go Wrong",
      text_of ["- Data may be stale"; "- Disk could fill up"]%string)]
  = [{| raw_type := risk; raw_description := u "Data may be stale" |};
     {| raw_type := risk; raw_description := u "Disk could fill up" |}].
Proof. reflexivity. Qed.

Example one_bug_needs_a_bullet :
  extract_issues Py.ascii_lower
    [(u "Current System State",
      text_of ["- API endpoint returns error intermittently";
               "an error without a bullet"]%string)]
  = [{| raw_type := bug;
        raw_description := u "API endpoint returns error intermittently" |}].
Proof. reflexivity. Qed.

Example ties_keep_first_seen_order :
  most_common_n 2 [(u "a", 1); (u "b", 2); (u "c", 1); (u "d", 2)]
  = [(u "b", 2); (u "d", 2)].
Proof. reflexivity. Qed.

Example same_day_span :
  time_span (analyze_handoffs Py.ascii_lower Py.ascii_digit (fun t => t)
                              same_day_corpus)
  = Some {| span_start := 32400000000;
            span_end := 68400000000;
            duration_days := 0 |}.
Proof. reflexivity. Qed.

Example timestamp_token_of_name :
  timestamp_token (parse_handoff Py.ascii_digit (fun t => t) quiet_file)
  = u "05Jan2025-1430".
Proof. reflexivity. Qed.

(** ** The locator and the glob on a small file system *)

Definition path_eqb (p q : path) : bool :=
  Bool.eqb (anchored p) (anchored q)
  && (List.length (parts p) =? List.length (parts q))%nat
  && forallb (fun ab => Py.str_eqb (fst ab) (snd ab)) (combine (parts p) (parts q)).

(** /home/dev/project/docs/handoffs is the only handoff directory. *)
Definition project_handoffs : path :=
  {| anchored := true;
     parts := [u "home"; u "dev"; u "project"; u "docs"; u "handoffs"] |}.

Example found_from_a_subdirectory :
  find_handoff_directory (path_eqb project_handoffs)
    {| anchored := true; parts := [u "tmp"] |}
    (Some {| anchored := true;
             parts := [u "home"; u "dev"; u "project"; u "src"; u "pkg"] |})
  = project_handoffs.
Proof. reflexivity. Qed.

Example default_when_nothing_is_found :
  find_handoff_directory (path_eqb project_handoffs)
    {| anchored := true; parts := [u "tmp"; u "work"] |} None
  = DEFAULT_HANDOFF_DIR.
Proof. reflexivity. Qed.

Example glob_accepts_and_rejects :
  map glob_match
      [u "AI_Continuation_Document-05Jan2025-1430.md";
       u "AI_Continuation_Document-.md";
       u "AI_Continuation_Document-05Jan2025-1430.md.bak";
       u "ai_continuation_document-05Jan2025-1430.md";
       u "notes.md"]
  = [true; true; false; false; false].
Proof. reflexivity. Qed.

(** ** Runs that the file system cuts short *)

Example unreadable_document_ends_the_run :
  main Py.ascii_lower Py.ascii_digit (fun t => t) evening_unreadable
       {| export := None; cmd := Some cmd_summary |}
       (Some same_day_corpus) empty_world
  = (inl UnicodeDecodeError, empty_world).
Proof. vm_compute. reflexivity. Qed.

Example refused_report_ends_the_run :
  main Py.ascii_lower Py.ascii_digit (fun t => t) report_refused
       {| export := None; cmd := Some cmd_report |}
       (Some same_day_corpus) empty_world
  = (inl OSError, empty_world)
  /\ fst (main Py.ascii_lower Py.ascii_digit (fun t => t) report_refused
               {| export := Some export_json_fmt; cmd := Some cmd_report |}
               (Some same_day_corpus) empty_world)
     = inr 0.
Proof. split; vm_compute; reflexivity. Qed.
